(** * ocgrpc_propagation: trace-context resolution and relay

    A shallow embedding of [trace_common.go]: the textual ([uber-trace-id])
    span-context decoder, the server-side resolution of the parent span, the
    two relay interceptors and the recorder of RPC lifecycle events, with the
    properties of each that the specification states. *)

From Stdlib Require Import ZArith Zbitwise Ascii String List Lia.
From stdpp Require Import gmap strings list.

Local Open Scope Z_scope.

(** ** Go runtime: panics *)

(** A Go function either returns or panics at run time.  The only panic that
    [trace_common.go] can raise is a slice expression [a[start:]] whose start
    is outside [0 .. len(a)]. *)
Inductive panic : Type :=
  | SliceBoundsOutOfRange (start : Z).

Inductive Outcome (A : Type) : Type :=
  | Returned (a : A)
  | Panicked (p : panic).
Arguments Returned {A} a.
Arguments Panicked {A} p.

Definition bind {A B : Type} (m : Outcome A) (k : A -> Outcome B) : Outcome B :=
  match m with
  | Returned a => k a
  | Panicked p => Panicked p
  end.

Notation "x <~ m ;; k" := (bind m (fun x => k))
  (at level 100, m at next level, right associativity).

Definition returns {A : Type} (m : Outcome A) : Prop :=
  exists a, m = Returned a.

(** [len] of a slice and of a string, as a Go [int]. *)
Definition len {A : Type} (l : list A) : Z := Z.of_nat (List.length l).
Definition strlen (s : string) : Z := Z.of_nat (String.length s).

(** ** Go standard library: [encoding/hex] and [strings] *)

Module hex.

Inductive error : Type :=
  | InvalidByteError (c : ascii)
  | ErrLength.

(** [reverseHexTable]: the value of a hexadecimal digit, [0xff] for every
    other byte. *)
Definition reverseHexTable (c : ascii) : Z :=
  let n := Z.of_N (N_of_ascii c) in
  if (48 <=? n) && (n <=? 57) then n - 48
  else if (97 <=? n) && (n <=? 102) then n - 97 + 10
  else if (65 <=? n) && (n <=? 70) then n - 65 + 10
  else 255.

(** [hex.DecodeString]: two digits make a byte; the bytes decoded before an
    error are returned with the error.  An invalid digit is reported before
    an odd length. *)
Fixpoint DecodeString (s : string) : list Z * option error :=
  match s with
  | EmptyString => ([], None)
  | String p EmptyString =>
      if 15 <? reverseHexTable p then ([], Some (InvalidByteError p))
      else ([], Some ErrLength)
  | String p (String q rest) =>
      let a := reverseHexTable p in
      let b := reverseHexTable q in
      if 15 <? a then ([], Some (InvalidByteError p))
      else if 15 <? b then ([], Some (InvalidByteError q))
      else
        let '(bs, err) := DecodeString rest in
        (Z.lor (Z.shiftl a 4) b :: bs, err)
  end.

End hex.

(** [strings.Split(s, sep)] for a one-byte separator: the fields between the
    occurrences of [sep], one more than there are occurrences. *)
Fixpoint strings_Split (s : string) (sep : ascii) : list string :=
  match s with
  | EmptyString => [EmptyString]
  | String c rest =>
      if Ascii.eqb c sep then EmptyString :: strings_Split rest sep
      else
        match strings_Split rest sep with
        | [] => [String c EmptyString]
        | p :: ps => String c p :: ps
        end
  end.

(** [strings.TrimPrefix(s, "/")] and [strings.Replace(s, "/", ".", -1)]. *)
Definition strings_TrimPrefix (s : string) (c : ascii) : string :=
  match s with
  | String c' rest => if Ascii.eqb c' c then rest else s
  | EmptyString => s
  end.

Fixpoint strings_Replace (s : string) (old new : ascii) : string :=
  match s with
  | EmptyString => EmptyString
  | String c rest =>
      String (if Ascii.eqb c old then new else c) (strings_Replace rest old new)
  end.

(** ** Data model *)

(** [trace.SpanContext]: a 16-byte trace id, an 8-byte span id and the option
    bits (bit 0: sampled). *)
Record SpanContext : Type := mkSpanContext {
  TraceID : list Z;
  SpanID : list Z;
  TraceOptions : Z
}.

(** The zero value of a Go [trace.SpanContext]. *)
Definition zeroSpanContext : SpanContext :=
  {| TraceID := replicate 16 0; SpanID := replicate 8 0; TraceOptions := 0 |}.

Definition withTraceID (sc : SpanContext) (t : list Z) : SpanContext :=
  {| TraceID := t; SpanID := SpanID sc; TraceOptions := TraceOptions sc |}.
Definition withSpanID (sc : SpanContext) (s : list Z) : SpanContext :=
  {| TraceID := TraceID sc; SpanID := s; TraceOptions := TraceOptions sc |}.
Definition withTraceOptions (sc : SpanContext) (o : Z) : SpanContext :=
  {| TraceID := TraceID sc; SpanID := SpanID sc; TraceOptions := o |}.

(** [copy(arr[start:], b)]: the slice expression panics unless
    [0 <= start <= len(arr)]; [copy] then moves as many bytes as fit. *)
Definition copy_from (arr : list Z) (start : Z) (b : list Z) : Outcome (list Z) :=
  if (start <? 0) || (len arr <? start) then Panicked (SliceBoundsOutOfRange start)
  else
    let s := Z.to_nat start in
    let n := Nat.min (List.length arr - s) (List.length b) in
    Returned (take s arr ++ take n b ++ drop (s + n) arr).

(** ** The textual decoder *)

Definition hexDecodePadded (h : string) : list Z * option hex.error :=
  if negb (Z.rem (strlen h) 2 =? 0) then hex.DecodeString (String "0" h)
  else hex.DecodeString h.

Definition spanContextFromJaeger (jv : string) : Outcome (SpanContext * bool) :=
  let parent := zeroSpanContext in
  match strings_Split jv ":" with
  | [p0; p1; _; p3] =>
      let '(b, err) := hexDecodePadded p0 in
      match err with
      | Some _ => Returned (parent, false)
      | None =>
          tid <~ (if len b <=? 8
                  then copy_from (TraceID parent) (8 + (8 - len b)) b
                  else copy_from (TraceID parent) (16 - len b) b) ;;
          let parent := withTraceID parent tid in
          let '(b, err) := hexDecodePadded p1 in
          match err with
          | Some _ => Returned (parent, false)
          | None =>
              sid <~ copy_from (SpanID parent) (8 - len b) b ;;
              let parent := withSpanID parent sid in
              if String.eqb p3 "1"
              then Returned (withTraceOptions parent 1, true)
              else Returned (withTraceOptions parent 0, true)
          end
      end
  | _ => Returned (parent, true)
  end.

(** ** gRPC metadata, contexts and the tracing backend *)

Definition traceContextKey : string := "grpc-trace-bin".
Definition jaegerContextKey : string := "uber-trace-id".

(** [metadata.MD] is [map[string][]string]. *)
Abbreviation MD := (gmap string (list string)).

Inductive SpanKind : Type :=
  | SpanKindUnspecified
  | SpanKindServer
  | SpanKindClient.

Inductive LinkType : Type :=
  | LinkTypeUnspecified
  | LinkTypeChild
  | LinkTypeParent.

(** [trace.Link] *)
Record Link : Type := mkLink {
  LinkTraceID : list Z;
  LinkSpanID : list Z;
  Type_ : LinkType
}.

(** [trace.Status] *)
Record Status : Type := mkStatus {
  Code : Z;
  Message : string
}.

Inductive Attribute : Type :=
  | BoolAttribute (key : string) (value : bool).

(** [codes.Internal] *)
Definition codes_Internal : Z := 13.

(** The conversion [int32(c)] of a [uint32] status code. *)
Definition int32 (c : Z) : Z :=
  let r := c mod 2 ^ 32 in
  if r <? 2 ^ 31 then r else r - 2 ^ 32.

(** The Go [error] interface, with what [status.FromError] extracts from an
    error: a gRPC code and message, and whether the error carried them. *)
Class GoError (E : Type) : Type := {
  Error : E -> string;
  status_FromError : E -> (Z * string) * bool
}.

(** [stats.RPCStats]: the lifecycle events of a call. *)
Inductive RPCStats (E : Type) : Type :=
  | Begin (Client FailFast : bool)
  | InPayload (Length WireLength : Z)
  | InHeader
  | InTrailer
  | OutPayload (Length WireLength : Z)
  | OutHeader
  | OutTrailer
  | End_ (err : option E).
Arguments Begin {E} Client FailFast.
Arguments InPayload {E} Length WireLength.
Arguments InHeader {E}.
Arguments InTrailer {E}.
Arguments OutPayload {E} Length WireLength.
Arguments OutHeader {E}.
Arguments OutTrailer {E}.
Arguments End_ {E} err.

(** [stats.RPCTagInfo] *)
Record RPCTagInfo : Type := { FullMethodName : string }.

Section Handlers.

(** The backend's [trace.Sampler], supplied by the embedding application. *)
Variable trace_Sampler : Type.

(** The binary codec of the primary format, [propagation.FromBinary],
    applied to the bytes of the metadata value. *)
Variable propagation_FromBinary : string -> SpanContext * bool.

(** The calls this package makes to the tracing backend.  [StartSpan] is
    given no remote parent: the backend starts a new trace, unless the
    context already carries a local span. *)
Inductive TraceCall : Type :=
  | StartSpan (name : string) (kind : SpanKind) (sampler : trace_Sampler)
  | StartSpanWithRemoteParent (name : string) (parent : SpanContext)
      (kind : SpanKind) (sampler : trace_Sampler)
  | AddLink (l : Link)
  | AddAttributes (attrs : list Attribute)
  | AddMessageReceiveEvent (messageID uncompressed compressed : Z)
  | AddMessageSendEvent (messageID uncompressed compressed : Z)
  | SetStatus (st : Status)
  | SpanEnd.

(** A call's [context.Context], as far as this package reads and extends
    it: the incoming metadata (if any), the pairs appended to the outgoing
    metadata, and the calls made to the tracing backend for the span that
    the context carries, oldest first. *)
Record Context : Type := mkContext {
  incomingMD : option MD;
  outgoingKV : list (string * string);
  backendCalls : list TraceCall
}.

Definition backend_call (ctx : Context) (c : TraceCall) : Context :=
  {| incomingMD := incomingMD ctx;
     outgoingKV := outgoingKV ctx;
     backendCalls := backendCalls ctx ++ [c] |}.

(** [metadata.AppendToOutgoingContext(ctx, k, v)] *)
Definition metadata_AppendToOutgoingContext (ctx : Context) (k v : string)
  : Context :=
  {| incomingMD := incomingMD ctx;
     outgoingKV := outgoingKV ctx ++ [(k, v)];
     backendCalls := backendCalls ctx |}.

Record StartOptions : Type := { Sampler : trace_Sampler }.

Record ServerHandler : Type := {
  IsPublicEndpoint : bool;
  ServerStartOptions : StartOptions
}.

(** *** ServerHandler.traceTagRPC

    The two early returns of the Go function are the two
    [StartSpanWithRemoteParent] branches; [root] is the code after the
    Jaeger block and [jaeger] is that block followed by [root]. *)
Definition traceTagRPC (s : ServerHandler) (ctx : Context) (rti : RPCTagInfo)
  : Outcome Context :=
  let md : MD := default ∅ (incomingMD ctx) in
  let name := strings_TrimPrefix (FullMethodName rti) "/" in
  let name := strings_Replace name "/" "." in
  let traceContext := default [] (md !! traceContextKey) in
  let sampler := Sampler (ServerStartOptions s) in
  let remote (parent : SpanContext) : Context :=
    backend_call ctx
      (StartSpanWithRemoteParent name parent SpanKindServer sampler) in
  let root (parent : SpanContext) (haveParent : bool) : Context :=
    let ctx := backend_call ctx (StartSpan name SpanKindServer sampler) in
    if haveParent
    then backend_call ctx
           (AddLink {| LinkTraceID := TraceID parent;
                       LinkSpanID := SpanID parent;
                       Type_ := LinkTypeChild |})
    else ctx in
  let jaeger (parent : SpanContext) (haveParent : bool) : Outcome Context :=
    match md !! jaegerContextKey with
    | Some jaegerContext =>
        match negb haveParent, jaegerContext with
        | true, jv :: _ =>
            r <~ spanContextFromJaeger jv ;;
            let '(parent, haveParent) := r in
            if haveParent && negb (IsPublicEndpoint s)
            then Returned (remote parent)
            else Returned (root parent haveParent)
        | _, _ => Returned (root parent haveParent)
        end
    | None => Returned (root parent haveParent)
    end in
  match traceContext with
  | tc :: _ =>
      let '(parent, haveParent) := propagation_FromBinary tc in
      if haveParent && negb (IsPublicEndpoint s)
      then Returned (remote parent)
      else jaeger parent haveParent
  | [] => jaeger zeroSpanContext false
  end.

(** *** The relay interceptors *)

Definition JaegerTracePropagateUnaryInterceptor {Req Info Resp : Type}
    (ctx : Context) (req : Req) (info : Info)
    (handler : Context -> Req -> Resp) : Resp :=
  let ctx :=
    match incomingMD ctx with
    | Some md =>
        match md !! jaegerContextKey with
        | Some (tr :: _) =>
            metadata_AppendToOutgoingContext ctx jaegerContextKey tr
        | _ => ctx
        end
    | None => ctx
    end in
  handler ctx req.

(** [grpc.ServerStream], as far as the interceptor uses it. *)
Class ServerStream (S : Type) : Type := { stream_Context : S -> Context }.

(** [grpc_middleware.WrappedServerStream] *)
Record WrappedServerStream (S : Type) : Type := {
  wrappedStream : S;
  WrappedContext : Context
}.
Arguments wrappedStream {S} _.
Arguments WrappedContext {S} _.

Definition JaegerTracePropagateStreamInterceptor
    {Srv S Info Err : Type} `{ServerStream S}
    (srv : Srv) (stream : S) (info : Info)
    (handler : Srv -> WrappedServerStream S -> Err) : Err :=
  let newCtx := stream_Context stream in
  let newCtx :=
    match incomingMD (stream_Context stream) with
    | Some md =>
        match md !! jaegerContextKey with
        | Some (tr :: _) =>
            metadata_AppendToOutgoingContext newCtx jaegerContextKey tr
        | _ => newCtx
        end
    | None => newCtx
    end in
  let wrapped := {| wrappedStream := stream; WrappedContext := newCtx |} in
  handler srv wrapped.

(** *** traceHandleRPC

    The function returns nothing and acts on the span of [ctx]; the model
    returns the context with the backend calls added.  The lengths are Go
    [int]s, which [int64(...)] leaves as they are. *)
Definition traceHandleRPC {E : Type} `{GoError E}
    (ctx : Context) (rs : RPCStats E) : Context :=
  match rs with
  | Begin client failFast =>
      backend_call ctx
        (AddAttributes [BoolAttribute "Client" client;
                        BoolAttribute "FailFast" failFast])
  | InPayload length wireLength =>
      backend_call ctx (AddMessageReceiveEvent 0 length wireLength)
  | OutPayload length wireLength =>
      backend_call ctx (AddMessageSendEvent 0 length wireLength)
  | End_ err =>
      let ctx :=
        match err with
        | Some e =>
            let '((code, message), ok) := status_FromError e in
            if ok
            then backend_call ctx
                   (SetStatus {| Code := int32 code; Message := message |})
            else backend_call ctx
                   (SetStatus {| Code := int32 codes_Internal;
                                 Message := Error e |})
        | None => ctx
        end in
      backend_call ctx SpanEnd
  | _ => ctx
  end.

End Handlers.

Arguments StartSpan {trace_Sampler} name kind sampler.
Arguments StartSpanWithRemoteParent {trace_Sampler} name parent kind sampler.
Arguments AddLink {trace_Sampler} l.
Arguments AddAttributes {trace_Sampler} attrs.
Arguments AddMessageReceiveEvent {trace_Sampler} messageID uncompressed compressed.
Arguments AddMessageSendEvent {trace_Sampler} messageID uncompressed compressed.
Arguments SetStatus {trace_Sampler} st.
Arguments SpanEnd {trace_Sampler}.
Arguments mkContext {trace_Sampler} incomingMD outgoingKV backendCalls.
Arguments incomingMD {trace_Sampler} c.
Arguments outgoingKV {trace_Sampler} c.
Arguments backendCalls {trace_Sampler} c.
Arguments backend_call {trace_Sampler} ctx c.
Arguments metadata_AppendToOutgoingContext {trace_Sampler} ctx k v.
Arguments Sampler {trace_Sampler} s.
Arguments IsPublicEndpoint {trace_Sampler} s.
Arguments ServerStartOptions {trace_Sampler} s.
Arguments traceTagRPC {trace_Sampler} propagation_FromBinary s ctx rti.
Arguments JaegerTracePropagateUnaryInterceptor {trace_Sampler Req Info Resp}
  ctx req info handler.
Arguments stream_Context {trace_Sampler S _} _.
Arguments wrappedStream {trace_Sampler S} _.
Arguments WrappedContext {trace_Sampler S} _.
Arguments JaegerTracePropagateStreamInterceptor {trace_Sampler Srv S Info Err _}
  srv stream info handler.
Arguments traceHandleRPC {trace_Sampler E _} ctx rs.

(** ** Vocabulary of the statements *)

#[export] Instance Outcome_fmap : FMap Outcome :=
  fun A B f m =>
    match m with
    | Returned a => Returned (f a)
    | Panicked p => Panicked p
    end.

(** What the primary key gives: the span context that
    [propagation.FromBinary] decodes from [md[traceContextKey][0]], if the
    key has a value and the decoding succeeds. *)
Definition primary_parent (propagation_FromBinary : string -> SpanContext * bool)
    (md : MD) : option SpanContext :=
  match default [] (md !! traceContextKey) with
  | tc :: _ =>
      let '(parent, haveParent) := propagation_FromBinary tc in
      if haveParent then Some parent else None
  | [] => None
  end.

(** The header that the secondary key gives: [md[jaegerContextKey][0]]. *)
Definition secondary_header (md : MD) : option string :=
  match md !! jaegerContextKey with
  | Some (jv :: _) => Some jv
  | _ => None
  end.

(** [md, _ := metadata.FromIncomingContext(ctx)]: a context without incoming
    metadata gives the nil map. *)
Definition incoming {trace_Sampler : Type} (ctx : Context trace_Sampler) : MD :=
  default ∅ (incomingMD ctx).

(** The span name of a call: [/pkg.Service/Method] becomes
    [pkg.Service.Method]. *)
Definition span_name (rti : RPCTagInfo) : string :=
  strings_Replace (strings_TrimPrefix (FullMethodName rti) "/") "/" ".".

(** The three ways [traceTagRPC] leaves the context: a span under a remote
    parent, a root span, and a root span with a link to the decoded parent. *)
Definition with_remote_parent {trace_Sampler : Type}
    (s : ServerHandler trace_Sampler) (ctx : Context trace_Sampler)
    (rti : RPCTagInfo) (parent : SpanContext) : Context trace_Sampler :=
  {| incomingMD := incomingMD ctx;
     outgoingKV := outgoingKV ctx;
     backendCalls :=
       backendCalls ctx
       ++ [StartSpanWithRemoteParent (span_name rti) parent SpanKindServer
             (Sampler (ServerStartOptions s))] |}.

Definition with_root {trace_Sampler : Type}
    (s : ServerHandler trace_Sampler) (ctx : Context trace_Sampler)
    (rti : RPCTagInfo) (links : list Link) : Context trace_Sampler :=
  {| incomingMD := incomingMD ctx;
     outgoingKV := outgoingKV ctx;
     backendCalls :=
       backendCalls ctx
       ++ StartSpan (span_name rti) SpanKindServer
            (Sampler (ServerStartOptions s))
          :: map AddLink links |}.

Definition child_link (parent : SpanContext) : Link :=
  {| LinkTraceID := TraceID parent;
     LinkSpanID := SpanID parent;
     Type_ := LinkTypeChild |}.

(** The pairs that a relay interceptor appends to the outgoing metadata. *)
Definition forwarded (md : MD) : list (string * string) :=
  match secondary_header md with
  | Some tr => [(jaegerContextKey, tr)]
  | None => []
  end.

(** The same context with more outgoing pairs. *)
Definition with_outgoing {trace_Sampler : Type} (ctx : Context trace_Sampler)
    (kvs : list (string * string)) : Context trace_Sampler :=
  {| incomingMD := incomingMD ctx;
     outgoingKV := outgoingKV ctx ++ kvs;
     backendCalls := backendCalls ctx |}.

(** The same context with other incoming metadata. *)
Definition with_incoming {trace_Sampler : Type} (ctx : Context trace_Sampler)
    (md : MD) : Context trace_Sampler :=
  {| incomingMD := Some md;
     outgoingKV := outgoingKV ctx;
     backendCalls := backendCalls ctx |}.

(** ** Sample inputs

    Concrete instances of the parameters, used to run the handlers. *)

Definition bytes_of (s : string) : list Z :=
  map (fun c => Z.of_N (N_of_ascii c)) (list_ascii_of_string s).

Definition string_of_bytes (l : list Z) : string :=
  string_of_list_ascii (map (fun z => ascii_of_N (Z.to_N z)) l).

(** A decoder in the shape of the binary format: a version byte [0], field
    [0] with the 16 bytes of the trace id, then optionally field [1] with the
    8 bytes of the span id and field [2] with the option byte. *)
Definition sample_FromBinary (v : string) : SpanContext * bool :=
  match bytes_of v with
  | 0 :: 0 :: b =>
      if 16 <=? len b then
        let sc := withTraceID zeroSpanContext (take 16 b) in
        let b := drop 16 b in
        let '(sc, b) :=
          match b with
          | 1 :: b' =>
              if 8 <=? len b' then (withSpanID sc (take 8 b'), drop 8 b')
              else (sc, b)
          | _ => (sc, b)
          end in
        let sc :=
          match b with
          | 2 :: o :: _ => withTraceOptions sc o
          | _ => sc
          end in
        (sc, true)
      else (zeroSpanContext, false)
  | _ => (zeroSpanContext, false)
  end.

Definition sample_binary : string :=
  string_of_bytes
    ([0; 0] ++ [1; 2; 3; 4; 5; 6; 7; 8; 9; 10; 11; 12; 13; 14; 15; 16]
     ++ [1] ++ [21; 22; 23; 24; 25; 26; 27; 28] ++ [2; 1]).

Definition sample_parent : SpanContext :=
  {| TraceID := [1; 2; 3; 4; 5; 6; 7; 8; 9; 10; 11; 12; 13; 14; 15; 16];
     SpanID := [21; 22; 23; 24; 25; 26; 27; 28];
     TraceOptions := 1 |}.

Definition sample_jaeger : string := "463ac35c9f6413ad:0:0:1".

Definition sample_jaeger_parent : SpanContext :=
  {| TraceID := [0; 0; 0; 0; 0; 0; 0; 0; 70; 58; 195; 92; 159; 100; 19; 173];
     SpanID := [0; 0; 0; 0; 0; 0; 0; 0];
     TraceOptions := 1 |}.

(** A trace id of 17 bytes and a span id of 9 bytes. *)
Definition long_trace_id : string :=
  "0100000000000000000000000000000000:1:0:1".
Definition long_span_id : string :=
  "1:010000000000000000:0:1".

(** Samplers are opaque to this package; the samples use a name. *)
Definition sample_handler (public : bool) : ServerHandler string :=
  {| IsPublicEndpoint := public;
     ServerStartOptions := {| Sampler := "always" |} |}.

Definition sample_ctx (md : MD) : Context string :=
  {| incomingMD := Some md; outgoingKV := []; backendCalls := [] |}.

Definition md_both : MD :=
  <[ traceContextKey := [sample_binary; "later"] ]>
    {[ jaegerContextKey := [long_trace_id] ]}.

Definition md_jaeger : MD :=
  {[ jaegerContextKey := [sample_jaeger; long_trace_id] ]}.

Definition md_jaeger_first : MD :=
  {[ jaegerContextKey := [sample_jaeger; "a:b:c"; "other"] ]}.

Definition md_unparsed : MD :=
  {[ jaegerContextKey := ["a:b:c"; "later"] ]}.

Definition sample_rti : RPCTagInfo :=
  {| FullMethodName := "/pkg.Service/Method" |}.

(** Errors that carry a gRPC status, and errors that do not. *)
Inductive sample_error : Type :=
  | StatusError (code : Z) (message : string)
  | PlainError (text : string).

#[export] Instance sample_error_GoError : GoError sample_error := {
  Error e :=
    match e with
    | StatusError _ message => message
    | PlainError text => text
    end;
  status_FromError e :=
    match e with
    | StatusError code message => ((code, message), true)
    | PlainError text => ((2, text), false)
    end
}.

(** A stream that only carries its context. *)
Record sample_stream : Type := { sample_stream_ctx : Context string }.

#[export] Instance sample_stream_ServerStream
  : ServerStream string sample_stream :=
  {| stream_Context := sample_stream_ctx |}.

(** ** The client side *)

Section ClientTagger.

Variable trace_Sampler : Type.

(** The binary codec of the primary format, [propagation.Binary]. *)
Variable propagation_Binary : SpanContext -> string.

(** [span.SpanContext()] of the span that the backend has just started.  The
    backend chooses the ids; here they may depend on the calls made so far. *)
Variable span_SpanContext : list (TraceCall trace_Sampler) -> SpanContext.

Record ClientHandler : Type := {
  ClientStartOptions : StartOptions trace_Sampler
}.

(** *** ClientHandler.traceTagRPC *)
Definition ClientHandler_traceTagRPC (c : ClientHandler)
    (ctx : Context trace_Sampler) (rti : RPCTagInfo) : Context trace_Sampler :=
  let name := strings_TrimPrefix (FullMethodName rti) "/" in
  let name := strings_Replace name "/" "." in
  let ctx :=
    backend_call ctx
      (StartSpan name SpanKindClient (Sampler (ClientStartOptions c))) in
  let traceContextBinary :=
    propagation_Binary (span_SpanContext (backendCalls ctx)) in
  metadata_AppendToOutgoingContext ctx traceContextKey traceContextBinary.

End ClientTagger.

Arguments ClientStartOptions {trace_Sampler} c.
Arguments ClientHandler_traceTagRPC {trace_Sampler} propagation_Binary
  span_SpanContext c ctx rti.

(** ** More vocabulary *)

Definition is_hex_digit (c : ascii) : bool := hex.reverseHexTable c <=? 15.

Definition all_hex (s : string) : bool :=
  forallb is_hex_digit (list_ascii_of_string s).

Definition is_byte (z : Z) : Prop := 0 <= z < 256.

Definition has_slash (s : string) : Prop :=
  In "/"%char (list_ascii_of_string s).

(** The backend calls that start a span, and those that trust a remote
    parent. *)
Definition is_span_start {trace_Sampler : Type} (c : TraceCall trace_Sampler)
  : bool :=
  match c with
  | StartSpan _ _ _ | StartSpanWithRemoteParent _ _ _ _ => true
  | _ => false
  end.

Definition is_remote_start {trace_Sampler : Type} (c : TraceCall trace_Sampler)
  : bool :=
  match c with
  | StartSpanWithRemoteParent _ _ _ _ => true
  | _ => false
  end.

Definition is_link {trace_Sampler : Type} (c : TraceCall trace_Sampler) : bool :=
  match c with
  | AddLink _ => true
  | _ => false
  end.

Definition is_span_end {trace_Sampler : Type} (c : TraceCall trace_Sampler)
  : bool :=
  match c with
  | SpanEnd => true
  | _ => false
  end.

Definition is_End {E : Type} (rs : RPCStats E) : bool :=
  match rs with
  | End_ _ => true
  | _ => false
  end.

(** The trace id that the decoder builds from the decoded bytes of field 0. *)
Definition aligned (n : nat) (b : list Z) : list Z :=
  replicate (n - List.length b) 0 ++ b.

(** The span context of the span that the client starts: what the backend
    gives for the span of its [StartSpan] call. *)
Definition client_span {trace_Sampler : Type}
    (span_SpanContext : list (TraceCall trace_Sampler) -> SpanContext)
    (c : ClientHandler trace_Sampler) (ctx : Context trace_Sampler)
    (rti : RPCTagInfo) : SpanContext :=
  span_SpanContext
    (backendCalls ctx
     ++ [StartSpan (span_name rti) SpanKindClient
           (Sampler (ClientStartOptions c))]).

(** More sample inputs: an encoder for [sample_FromBinary], a backend that
    gives every new span the ids of [sample_parent], and a client. *)
Definition sample_Binary (sc : SpanContext) : string :=
  string_of_bytes
    ([0; 0] ++ TraceID sc ++ [1] ++ SpanID sc ++ [2; TraceOptions sc]).

Definition sample_span_SpanContext (calls : list (TraceCall string))
  : SpanContext :=
  sample_parent.

Definition md_primary : MD :=
  {[ traceContextKey := [sample_binary] ]}.

Definition sample_client : ClientHandler string :=
  {| ClientStartOptions := {| Sampler := "always" |} |}.

(** * Properties *)

(** ** Slices *)

Lemma copy_from_aligned (n : nat) (b : list Z) :
  (List.length b <= n)%nat ->
  copy_from (replicate n 0) (Z.of_nat n - len b) b
  = Returned (replicate (n - List.length b) 0 ++ b).
Proof.
  intros Hb. unfold copy_from, len.
  rewrite length_replicate.
  destruct (Z.ltb_spec (Z.of_nat n - Z.of_nat (List.length b)) 0) as [Hneg|_];
    [lia|].
  destruct (Z.ltb_spec (Z.of_nat n)
              (Z.of_nat n - Z.of_nat (List.length b))) as [Hbig|_]; [lia|].
  cbn [orb].
  replace (Z.to_nat (Z.of_nat n - Z.of_nat (List.length b)))
    with (n - List.length b)%nat by lia.
  replace (n - (n - List.length b))%nat with (List.length b) by lia.
  rewrite Nat.min_id, firstn_all.
  rewrite take_replicate, drop_replicate.
  replace (n - (n - List.length b + List.length b))%nat with 0%nat by lia.
  replace ((n - List.length b) `min` n)%nat with (n - List.length b)%nat by lia.
  cbn [replicate]. now rewrite app_nil_r.
Qed.

Lemma copy_from_negative (arr b : list Z) (start : Z) :
  start < 0 -> copy_from arr start b = Panicked (SliceBoundsOutOfRange start).
Proof.
  intros Hs. unfold copy_from.
  destruct (Z.ltb_spec start 0); [reflexivity | lia].
Qed.

(** ** The textual decoder on four fields *)

Section FourFields.

Variables (jv p0 p1 p2 p3 : string) (b0 b1 : list Z).
Hypothesis Hsplit : strings_Split jv ":" = [p0; p1; p2; p3].
Hypothesis Htrace : hexDecodePadded p0 = (b0, None).

(** Up to 16 bytes of trace id and 8 bytes of span id: both are
    right-aligned in their arrays, whichever branch places the trace id. *)
Lemma spanContextFromJaeger_aligned :
  hexDecodePadded p1 = (b1, None) ->
  len b0 <= 16 -> len b1 <= 8 ->
  spanContextFromJaeger jv
  = Returned ({| TraceID := replicate (16 - List.length b0) 0 ++ b0;
                 SpanID := replicate (8 - List.length b1) 0 ++ b1;
                 TraceOptions := if String.eqb p3 "1" then 1 else 0 |},
              true).
Proof.
  intros Hspan H0 H1. unfold spanContextFromJaeger.
  rewrite Hsplit, Htrace. cbn [zeroSpanContext TraceID].
  replace (8 + (8 - len b0)) with (16 - len b0) by lia.
  assert (Hc0 : copy_from (replicate 16 0) (16 - len b0) b0
                = Returned (replicate (16 - List.length b0) 0 ++ b0)).
  { apply (copy_from_aligned 16). unfold len in H0. lia. }
  rewrite Hc0. destruct (len b0 <=? 8); cbn [bind]; rewrite Hspan;
    cbn [withTraceID SpanID];
    rewrite (copy_from_aligned 8) by (unfold len in H1; lia);
    cbn [bind]; destruct (String.eqb p3 "1"); reflexivity.
Qed.

(** More than 16 bytes of trace id: the slice expression panics. *)
Lemma spanContextFromJaeger_long_trace_id :
  16 < len b0 ->
  spanContextFromJaeger jv = Panicked (SliceBoundsOutOfRange (16 - len b0)).
Proof.
  intros H0. unfold spanContextFromJaeger.
  rewrite Hsplit, Htrace.
  destruct (Z.leb_spec (len b0) 8); [lia|].
  rewrite copy_from_negative by lia. reflexivity.
Qed.

(** More than 8 bytes of span id: the slice expression panics. *)
Lemma spanContextFromJaeger_long_span_id :
  hexDecodePadded p1 = (b1, None) ->
  len b0 <= 16 -> 8 < len b1 ->
  spanContextFromJaeger jv = Panicked (SliceBoundsOutOfRange (8 - len b1)).
Proof.
  intros Hspan H0 H1. unfold spanContextFromJaeger.
  rewrite Hsplit, Htrace. cbn [zeroSpanContext TraceID].
  replace (8 + (8 - len b0)) with (16 - len b0) by lia.
  rewrite (copy_from_aligned 16) by (unfold len in H0; lia).
  destruct (len b0 <=? 8); cbn [bind]; rewrite Hspan;
    rewrite copy_from_negative by lia; reflexivity.
Qed.

End FourFields.

(** Any other number of fields: the zero span context, reported as found. *)
Lemma spanContextFromJaeger_other_count (jv : string) :
  List.length (strings_Split jv ":") <> 4%nat ->
  spanContextFromJaeger jv = Returned (zeroSpanContext, true).
Proof.
  intros Hn. unfold spanContextFromJaeger.
  destruct (strings_Split jv ":") as [|a [|b [|c [|d [|e l]]]]];
    try reflexivity.
  now contradiction Hn.
Qed.

(** ** The decode helper *)

Lemma strlen_String (c : ascii) (h : string) : strlen (String c h) = 1 + strlen h.
Proof. unfold strlen. cbn [String.length]. lia. Qed.

Lemma strlen_nonneg (h : string) : 0 <= strlen h.
Proof. unfold strlen. lia. Qed.

(** C8: an odd-length field is decoded as the field with one ['0'] in front,
    which is also what the helper returns for that longer, even-length
    string (bytes and error alike); an even-length field is decoded as it
    is. *)
Theorem hexDecodePadded_pads_one_zero (h : string) :
  (Z.rem (strlen h) 2 <> 0 ->
     hexDecodePadded h = hex.DecodeString (String "0" h)
     /\ hexDecodePadded h = hexDecodePadded (String "0" h))
  /\ (Z.rem (strlen h) 2 = 0 -> hexDecodePadded h = hex.DecodeString h).
Proof.
  pose proof (strlen_nonneg h) as Hpos. split.
  - intros Hodd.
    assert (Hh : hexDecodePadded h = hex.DecodeString (String "0" h)).
    { unfold hexDecodePadded.
      destruct (Z.eqb_spec (Z.rem (strlen h) 2) 0); [contradiction | reflexivity]. }
    split; [exact Hh|]. rewrite Hh. unfold hexDecodePadded at 1.
    rewrite strlen_String.
    rewrite Z.rem_mod_nonneg in * by lia.
    replace ((1 + strlen h) mod 2) with 0; [reflexivity|].
    pose proof (Z.mod_pos_bound (strlen h) 2 ltac:(lia)).
    rewrite Zplus_mod.
    destruct (Z.eq_dec (strlen h mod 2) 1) as [->|]; [reflexivity | lia].
  - intros Heven. unfold hexDecodePadded. now rewrite Heven.
Qed.

Lemma hexDecodePadded_pads_one_zero_witness :
  Z.rem (strlen "abc") 2 <> 0
  /\ hexDecodePadded "abc" = ([10; 188], None)
  /\ hexDecodePadded "abc" = hexDecodePadded "0abc"
  /\ Z.rem (strlen "0abc") 2 = 0
  /\ hexDecodePadded "0abc" = hex.DecodeString "0abc".
Proof.
  assert (Hodd : Z.rem (strlen "abc") 2 <> 0) by (vm_compute; discriminate).
  assert (Heven : Z.rem (strlen "0abc") 2 = 0) by reflexivity.
  destruct (hexDecodePadded_pads_one_zero "abc") as [Ho _].
  destruct (hexDecodePadded_pads_one_zero "0abc") as [_ He].
  destruct (Ho Hodd) as [H1 H2].
  split; [exact Hodd|]. split; [rewrite H1; reflexivity|].
  split; [exact H2|]. split; [exact Heven | exact (He Heven)].
Defined.

(** ** The textual decoder on concrete headers *)

(** C4: the header [463ac35c9f6413ad:0:0:1] decodes; the upper 8 bytes of the
    trace id are zero, the lower 8 are the bytes of the field, the span id is
    zero and the sampled bit is set. *)
Theorem spanContextFromJaeger_sample :
  exists sc,
    spanContextFromJaeger "463ac35c9f6413ad:0:0:1" = Returned (sc, true)
    /\ take 8 (TraceID sc) = replicate 8 0
    /\ drop 8 (TraceID sc) = [0x46; 0x3a; 0xc3; 0x5c; 0x9f; 0x64; 0x13; 0xad]
    /\ SpanID sc = replicate 8 0
    /\ Z.testbit (TraceOptions sc) 0 = true
    /\ TraceOptions sc = 1.
Proof.
  exists sample_jaeger_parent. repeat split.
Qed.

(** C1: a header of three fields is not reported as unusable.  The decoder
    returns the zero span context with [ok = true], and a server that is not
    a public endpoint starts its span under that all-zero remote parent
    instead of starting a root span. *)
Theorem spanContextFromJaeger_three_fields :
  spanContextFromJaeger "a:b:c" = Returned (zeroSpanContext, true)
  /\ traceTagRPC sample_FromBinary (sample_handler false)
       (sample_ctx {[ jaegerContextKey := ["a:b:c"] ]}) sample_rti
     = Returned
         (backend_call (sample_ctx {[ jaegerContextKey := ["a:b:c"] ]})
            (StartSpanWithRemoteParent "pkg.Service.Method" zeroSpanContext
               SpanKindServer "always")).
Proof.
  split; [reflexivity|]. vm_compute. reflexivity.
Qed.

(** C2: a trace id of 17 bytes and a span id of 9 bytes both make the decoder
    panic, and the panic leaves [traceTagRPC] with it. *)
Theorem spanContextFromJaeger_panics :
  spanContextFromJaeger long_trace_id = Panicked (SliceBoundsOutOfRange (-1))
  /\ spanContextFromJaeger long_span_id = Panicked (SliceBoundsOutOfRange (-1))
  /\ traceTagRPC sample_FromBinary (sample_handler false)
       (sample_ctx {[ jaegerContextKey := [long_trace_id] ]}) sample_rti
     = Panicked (SliceBoundsOutOfRange (-1))
  /\ traceTagRPC sample_FromBinary (sample_handler true)
       (sample_ctx {[ jaegerContextKey := [long_span_id] ]}) sample_rti
     = Panicked (SliceBoundsOutOfRange (-1)).
Proof.
  repeat split; vm_compute; reflexivity.
Qed.

(** C5: the trace-id field of [long_trace_id] decodes without error to 17
    bytes, yet no trace id is produced: the decoder does not return. *)
Theorem long_trace_id_not_aligned :
  hexDecodePadded "0100000000000000000000000000000000"
  = (1 :: replicate 16 0, None)
  /\ ~ returns (spanContextFromJaeger long_trace_id).
Proof.
  split; [reflexivity|].
  intros [r Hr]. vm_compute in Hr. discriminate Hr.
Qed.

(** ** The resolution of the parent span *)

Section Resolver.

Context {trace_Sampler : Type}.
Variable FromBinary : string -> SpanContext * bool.
Implicit Types (s : ServerHandler trace_Sampler) (ctx : Context trace_Sampler).
Implicit Types (rti : RPCTagInfo) (md : MD) (p : SpanContext).

Lemma root_then_link s ctx rti p :
  backend_call
    (backend_call ctx
       (StartSpan (span_name rti) SpanKindServer (Sampler (ServerStartOptions s))))
    (AddLink (child_link p))
  = with_root s ctx rti [child_link p].
Proof.
  unfold backend_call, with_root. cbn [incomingMD outgoingKV backendCalls map].
  now rewrite <- app_assoc.
Qed.

Ltac open_traceTagRPC ctx rti :=
  unfold traceTagRPC, primary_parent, secondary_header, incoming in *;
  cbv beta zeta; set (md := default ∅ (incomingMD ctx)) in *;
  fold (span_name rti).

(** What a decoded primary parent leads to: the secondary key plays no
    part. *)
Lemma traceTagRPC_unfold_primary s ctx rti p :
  primary_parent FromBinary (incoming ctx) = Some p ->
  traceTagRPC FromBinary s ctx rti
  = Returned (if IsPublicEndpoint s
              then with_root s ctx rti [child_link p]
              else with_remote_parent s ctx rti p).
Proof.
  intros Hprim. open_traceTagRPC ctx rti.
  destruct (default [] (md !! traceContextKey)) as [|tc more]; [discriminate|].
  destruct (FromBinary tc) as [q [|]]; [|discriminate].
  injection Hprim as ->. cbn [andb].
  destruct (IsPublicEndpoint s); cbn [negb]; [|reflexivity].
  destruct (md !! jaegerContextKey) as [[|jv more']|]; cbn [negb];
    f_equal; apply root_then_link.
Qed.

(** What the secondary key leads to, once the primary gave nothing. *)
Lemma traceTagRPC_unfold_jaeger s ctx rti :
  primary_parent FromBinary (incoming ctx) = None ->
  traceTagRPC FromBinary s ctx rti
  = match secondary_header (incoming ctx) with
    | Some jv =>
        r <~ spanContextFromJaeger jv ;;
        Returned
          (if snd r
           then if IsPublicEndpoint s
                then with_root s ctx rti [child_link (fst r)]
                else with_remote_parent s ctx rti (fst r)
           else with_root s ctx rti [])
    | None => Returned (with_root s ctx rti [])
    end.
Proof.
  intros Hprim. open_traceTagRPC ctx rti.
  destruct (default [] (md !! traceContextKey)) as [|tc more];
    [|destruct (FromBinary tc) as [q [|]]; [discriminate|]; cbn [andb]];
    (destruct (md !! jaegerContextKey) as [[|jv more']|]; cbn [negb];
     try reflexivity;
     destruct (spanContextFromJaeger jv) as [[p [|]]|e];
     cbn [bind fst snd andb]; try reflexivity;
     destruct (IsPublicEndpoint s); cbn [negb]; [|reflexivity];
     f_equal; apply root_then_link).
Qed.

(** The outcome does not depend on the incoming metadata beyond what the two
    lookups give. *)
Lemma traceTagRPC_same_lookups s ctx rti md' :
  primary_parent FromBinary md' = primary_parent FromBinary (incoming ctx) ->
  (primary_parent FromBinary (incoming ctx) = None ->
   secondary_header md' = secondary_header (incoming ctx)) ->
  traceTagRPC FromBinary s (with_incoming ctx md') rti
  = (fun c => with_incoming c md') <$> traceTagRPC FromBinary s ctx rti.
Proof.
  intros Hprim Hsec.
  destruct (primary_parent FromBinary (incoming ctx)) as [p|] eqn:Hp.
  - rewrite (traceTagRPC_unfold_primary s ctx rti p Hp).
    rewrite (traceTagRPC_unfold_primary s (with_incoming ctx md') rti p Hprim).
    destruct (IsPublicEndpoint s); reflexivity.
  - rewrite (traceTagRPC_unfold_jaeger s ctx rti Hp).
    rewrite (traceTagRPC_unfold_jaeger s (with_incoming ctx md') rti Hprim).
    change (incoming (with_incoming ctx md')) with md'.
    rewrite (Hsec eq_refl).
    destruct (secondary_header (incoming ctx)) as [jv|]; [|reflexivity].
    destruct (spanContextFromJaeger jv) as [[q [|]]|e]; cbn; try reflexivity.
    destruct (IsPublicEndpoint s); reflexivity.
Qed.

(** C3: on a public endpoint, a parent decoded from the primary key, or from
    the secondary key when the primary gives none, is not used as the remote
    parent: the span is started with [StartSpan], and one link of type child
    with the decoded trace id and span id is added to it. *)
Theorem public_endpoint_links_parent s ctx rti p :
  IsPublicEndpoint s = true ->
  primary_parent FromBinary (incoming ctx) = Some p
  \/ (primary_parent FromBinary (incoming ctx) = None
      /\ exists jv, secondary_header (incoming ctx) = Some jv
                    /\ spanContextFromJaeger jv = Returned (p, true)) ->
  exists ctx',
    traceTagRPC FromBinary s ctx rti = Returned ctx'
    /\ backendCalls ctx'
       = backendCalls ctx
         ++ [StartSpan (span_name rti) SpanKindServer
               (Sampler (ServerStartOptions s));
             AddLink {| LinkTraceID := TraceID p;
                        LinkSpanID := SpanID p;
                        Type_ := LinkTypeChild |}]
    /\ incomingMD ctx' = incomingMD ctx
    /\ outgoingKV ctx' = outgoingKV ctx.
Proof.
  intros Hpub Hparent. exists (with_root s ctx rti [child_link p]).
  split; [|repeat split].
  destruct Hparent as [Hprim | (Hprim & jv & Hsec & Hdec)].
  - now rewrite (traceTagRPC_unfold_primary s ctx rti p Hprim), Hpub.
  - rewrite (traceTagRPC_unfold_jaeger s ctx rti Hprim), Hsec, Hdec.
    cbn [bind fst snd]. now rewrite Hpub.
Qed.

(** X20: the ordered chain, as far as it holds.  (1) A primary parent on an
    endpoint that is not public is the remote parent of the span.  (2) When
    the primary key gives a parent, other values under the secondary key
    leave the outcome as it is: the secondary key is not consulted.  (3) When
    the primary key gives none and the secondary key has a value, that value
    is decoded and what the decoder does decides the outcome, its panic
    included.  (4) When the primary key gives none and the secondary key has
    no value, a root server span is started under the sampler.  (5) A
    resolution that returns has taken one of the terminal branches: a span
    under a remote parent on an endpoint that is not public, or a root server
    span under the sampler, with one link or none. *)
Theorem traceTagRPC_fallback_chain s ctx rti :
  (forall p,
     primary_parent FromBinary (incoming ctx) = Some p ->
     IsPublicEndpoint s = false ->
     traceTagRPC FromBinary s ctx rti
     = Returned (with_remote_parent s ctx rti p))
  /\ (forall p md',
        primary_parent FromBinary (incoming ctx) = Some p ->
        (forall k, k <> jaegerContextKey -> md' !! k = incoming ctx !! k) ->
        traceTagRPC FromBinary s (with_incoming ctx md') rti
        = (fun c => with_incoming c md') <$> traceTagRPC FromBinary s ctx rti)
  /\ (forall jv,
        primary_parent FromBinary (incoming ctx) = None ->
        secondary_header (incoming ctx) = Some jv ->
        traceTagRPC FromBinary s ctx rti
        = (r <~ spanContextFromJaeger jv ;;
           Returned
             (if snd r
              then if IsPublicEndpoint s
                   then with_root s ctx rti [child_link (fst r)]
                   else with_remote_parent s ctx rti (fst r)
              else with_root s ctx rti [])))
  /\ (primary_parent FromBinary (incoming ctx) = None ->
      secondary_header (incoming ctx) = None ->
      traceTagRPC FromBinary s ctx rti = Returned (with_root s ctx rti []))
  /\ (forall ctx',
        traceTagRPC FromBinary s ctx rti = Returned ctx' ->
        (exists p, IsPublicEndpoint s = false
                   /\ ctx' = with_remote_parent s ctx rti p)
        \/ (exists links, ctx' = with_root s ctx rti links)).
Proof.
  split; [|split; [|split; [|split]]].
  - intros p Hprim Hpub.
    now rewrite (traceTagRPC_unfold_primary s ctx rti p Hprim), Hpub.
  - intros p md' Hprim Hsame. apply traceTagRPC_same_lookups.
    + unfold primary_parent. rewrite Hsame; [reflexivity | discriminate].
    + rewrite Hprim. discriminate.
  - intros jv Hprim Hsec.
    now rewrite (traceTagRPC_unfold_jaeger s ctx rti Hprim), Hsec.
  - intros Hprim Hsec.
    now rewrite (traceTagRPC_unfold_jaeger s ctx rti Hprim), Hsec.
  - intros ctx' Hres.
    destruct (primary_parent FromBinary (incoming ctx)) as [p|] eqn:Hprim.
    + rewrite (traceTagRPC_unfold_primary s ctx rti p Hprim) in Hres.
      injection Hres as <-. destruct (IsPublicEndpoint s); eauto.
    + rewrite (traceTagRPC_unfold_jaeger s ctx rti Hprim) in Hres.
      destruct (secondary_header (incoming ctx)) as [jv|].
      * destruct (spanContextFromJaeger jv) as [[p [|]]|e];
          cbn [bind fst snd] in Hres; [| |discriminate];
          injection Hres as <-; [destruct (IsPublicEndpoint s)|]; eauto.
      * injection Hres as <-. eauto.
Qed.

(** The two lookups read the first value of their key only. *)
Lemma primary_parent_first_value (md1 md2 : MD) :
  take 1 (default [] (md1 !! traceContextKey))
  = take 1 (default [] (md2 !! traceContextKey)) ->
  primary_parent FromBinary md1 = primary_parent FromBinary md2.
Proof.
  unfold primary_parent.
  destruct (default [] (md1 !! traceContextKey)) as [|a l1],
           (default [] (md2 !! traceContextKey)) as [|b l2];
    cbn [take]; intros Heq; try discriminate; [reflexivity|].
  now injection Heq as ->.
Qed.

End Resolver.

Lemma secondary_header_first_value (md1 md2 : MD) :
  take 1 (default [] (md1 !! jaegerContextKey))
  = take 1 (default [] (md2 !! jaegerContextKey)) ->
  secondary_header md1 = secondary_header md2.
Proof.
  unfold secondary_header.
  destruct (md1 !! jaegerContextKey) as [[|a l1]|],
           (md2 !! jaegerContextKey) as [[|b l2]|];
    cbn [take default from_option id]; intros Heq;
    try discriminate; try reflexivity.
  now injection Heq as ->.
Qed.

(** ** The relay interceptors *)

Section Relay.

Context {trace_Sampler : Type}.
Implicit Types (ctx : Context trace_Sampler) (md : MD).

Lemma with_outgoing_nil ctx : with_outgoing ctx [] = ctx.
Proof. destruct ctx. unfold with_outgoing. cbn. now rewrite app_nil_r. Qed.

(** Both interceptors hand to the next handler the context with the
    forwarded pair appended, and nothing else changed. *)
Lemma unary_interceptor_unfold {Req Info Resp : Type} ctx (req : Req)
    (info : Info) (handler : Context trace_Sampler -> Req -> Resp) :
  JaegerTracePropagateUnaryInterceptor ctx req info handler
  = handler (with_outgoing ctx (forwarded (incoming ctx))) req.
Proof.
  unfold JaegerTracePropagateUnaryInterceptor, forwarded, secondary_header,
    incoming.
  destruct (incomingMD ctx) as [md|]; cbn [default from_option id].
  - destruct (md !! jaegerContextKey) as [[|tr more]|];
      now rewrite ?with_outgoing_nil.
  - rewrite lookup_empty. now rewrite with_outgoing_nil.
Qed.

Lemma stream_interceptor_unfold {Srv S Info Err : Type}
    `{ServerStream trace_Sampler S} (srv : Srv) (stream : S) (info : Info)
    (handler : Srv -> WrappedServerStream trace_Sampler S -> Err) :
  JaegerTracePropagateStreamInterceptor srv stream info handler
  = handler srv
      {| wrappedStream := stream;
         WrappedContext :=
           with_outgoing (stream_Context stream)
             (forwarded (incoming (stream_Context stream))) |}.
Proof.
  unfold JaegerTracePropagateStreamInterceptor, forwarded, secondary_header,
    incoming.
  destruct (incomingMD (stream_Context stream)) as [md|];
    cbn [default from_option id].
  - destruct (md !! jaegerContextKey) as [[|tr more]|];
      now rewrite ?with_outgoing_nil.
  - rewrite lookup_empty. now rewrite with_outgoing_nil.
Qed.

(** C7: when the incoming metadata has a value under the secondary key, the
    context that either interceptor passes to the next handler is the
    incoming context with the pair of the secondary key and that value, as it
    is, appended to the outgoing metadata.  Nothing is assumed of the value:
    it is not decoded. *)
Theorem relay_forwards_value ctx md (v : string) (more : list string) :
  incomingMD ctx = Some md ->
  md !! jaegerContextKey = Some (v :: more) ->
  let next := metadata_AppendToOutgoingContext ctx jaegerContextKey v in
  outgoingKV next = outgoingKV ctx ++ [(jaegerContextKey, v)]
  /\ incomingMD next = incomingMD ctx
  /\ backendCalls next = backendCalls ctx
  /\ (forall (Req Info Resp : Type) (req : Req) (info : Info)
        (handler : Context trace_Sampler -> Req -> Resp),
        JaegerTracePropagateUnaryInterceptor ctx req info handler
        = handler next req)
  /\ (forall (Srv S Info Err : Type) (HS : ServerStream trace_Sampler S)
        (srv : Srv) (stream : S) (info : Info)
        (handler : Srv -> WrappedServerStream trace_Sampler S -> Err),
        stream_Context stream = ctx ->
        JaegerTracePropagateStreamInterceptor srv stream info handler
        = handler srv {| wrappedStream := stream; WrappedContext := next |}).
Proof.
  intros Hmd Hv next.
  assert (Hfwd : forwarded (incoming ctx) = [(jaegerContextKey, v)]).
  { unfold forwarded, secondary_header, incoming. now rewrite Hmd; cbn; rewrite Hv. }
  repeat (split; [reflexivity|]). split.
  - intros. now rewrite unary_interceptor_unfold, Hfwd.
  - intros Srv S Info Err HS srv stream info handler Hctx.
    now rewrite stream_interceptor_unfold, Hctx, Hfwd.
Qed.

End Relay.

(** ** The event recorder *)

Section Recorder.

Context {trace_Sampler E : Type} `{GoError E}.
Implicit Types (ctx : Context trace_Sampler) (err : option E).

(** C9: on [End], the calls made on the span are an optional [SetStatus]
    followed by [End].  There is a [SetStatus] exactly when the event carries
    an error; its status is the code and message that [status.FromError]
    extracts when it extracts them, and the internal code (13) with the text
    of the error otherwise. *)
Theorem traceHandleRPC_End ctx err :
  exists status_calls : list (TraceCall trace_Sampler),
    backendCalls (traceHandleRPC ctx (End_ err))
    = backendCalls ctx ++ status_calls ++ [SpanEnd]
    /\ (err = None -> status_calls = [])
    /\ (forall e, err = Some e ->
          exists st, status_calls = [SetStatus st]
            /\ (forall code message,
                  status_FromError e = ((code, message), true) ->
                  st = {| Code := int32 code; Message := message |})
            /\ (forall found,
                  status_FromError e = (found, false) ->
                  st = {| Code := 13; Message := Error e |})).
Proof.
  destruct err as [e|]; cbn [traceHandleRPC].
  - destruct (status_FromError e) as [[code message] [|]] eqn:Hst.
    + exists [SetStatus {| Code := int32 code; Message := message |}].
      cbn [backend_call backendCalls]. split; [now rewrite <- app_assoc|].
      split; [discriminate|]. intros e' [= <-]. eexists. split; [reflexivity|].
      rewrite Hst. split; [now intros ? ? [= <- <-] | discriminate].
    + exists [SetStatus {| Code := 13; Message := Error e |}].
      cbn [backend_call backendCalls]. split; [now rewrite <- app_assoc|].
      split; [discriminate|]. intros e' [= <-]. eexists. split; [reflexivity|].
      rewrite Hst. split; [discriminate | reflexivity].
  - exists []. split; [reflexivity|]. split; [reflexivity | discriminate].
Qed.

End Recorder.

(** ** First values *)

(** C10: metadata that agree on the first value of the primary key and on the
    first value of the secondary key lead to the same resolution, and to the
    same pairs forwarded by both interceptors: values after the first play no
    part. *)
Theorem only_first_values_count {trace_Sampler : Type}
    (FromBinary : string -> SpanContext * bool)
    (s : ServerHandler trace_Sampler) (ctx : Context trace_Sampler)
    (rti : RPCTagInfo) (md1 md2 : MD) :
  take 1 (default [] (md1 !! traceContextKey))
  = take 1 (default [] (md2 !! traceContextKey)) ->
  take 1 (default [] (md1 !! jaegerContextKey))
  = take 1 (default [] (md2 !! jaegerContextKey)) ->
  traceTagRPC FromBinary s (with_incoming ctx md1) rti
  = (fun c => with_incoming c md1)
      <$> traceTagRPC FromBinary s (with_incoming ctx md2) rti
  /\ exists fwd : list (string * string),
       fwd = forwarded md1 /\
       forall md, md = md1 \/ md = md2 ->
         (forall (Req Info Resp : Type) (req : Req) (info : Info)
            (handler : Context trace_Sampler -> Req -> Resp),
            JaegerTracePropagateUnaryInterceptor (with_incoming ctx md)
              req info handler
            = handler (with_outgoing (with_incoming ctx md) fwd) req)
         /\ (forall (Srv S Info Err : Type) (HS : ServerStream trace_Sampler S)
               (srv : Srv) (stream : S) (info : Info)
               (handler : Srv -> WrappedServerStream trace_Sampler S -> Err),
               stream_Context stream = with_incoming ctx md ->
               JaegerTracePropagateStreamInterceptor srv stream info handler
               = handler srv
                   {| wrappedStream := stream;
                      WrappedContext :=
                        with_outgoing (with_incoming ctx md) fwd |}).
Proof.
  intros Hprim Hsec.
  pose proof (primary_parent_first_value FromBinary md1 md2 Hprim) as Hp.
  pose proof (secondary_header_first_value md1 md2 Hsec) as Hs.
  split.
  - apply (traceTagRPC_same_lookups FromBinary s (with_incoming ctx md2) rti md1);
      [exact Hp | intros _; exact Hs].
  - exists (forwarded md2). split; [unfold forwarded; now rewrite Hs|].
    intros md Hmd.
    assert (Hfwd : forwarded (incoming (with_incoming ctx md)) = forwarded md2).
    { change (incoming (with_incoming ctx md)) with md. unfold forwarded.
      destruct Hmd as [-> | ->]; [now rewrite Hs | reflexivity]. }
    split.
    + intros. now rewrite unary_interceptor_unfold, Hfwd.
    + intros Srv S Info Err HS srv stream info handler Hctx.
      now rewrite stream_interceptor_unfold, Hctx, Hfwd.
Qed.

(** ** The theorems at the sample inputs *)

Lemma public_endpoint_links_parent_witness :
  (exists ctx',
     traceTagRPC sample_FromBinary (sample_handler true) (sample_ctx md_both)
       sample_rti = Returned ctx'
     /\ backendCalls ctx'
        = [StartSpan "pkg.Service.Method" SpanKindServer "always";
           AddLink {| LinkTraceID := TraceID sample_parent;
                      LinkSpanID := SpanID sample_parent;
                      Type_ := LinkTypeChild |}]
     /\ incomingMD ctx' = Some md_both
     /\ outgoingKV ctx' = [])
  /\ (exists ctx',
        traceTagRPC sample_FromBinary (sample_handler true)
          (sample_ctx md_jaeger) sample_rti = Returned ctx'
        /\ backendCalls ctx'
           = [StartSpan "pkg.Service.Method" SpanKindServer "always";
              AddLink {| LinkTraceID := TraceID sample_jaeger_parent;
                         LinkSpanID := SpanID sample_jaeger_parent;
                         Type_ := LinkTypeChild |}]
        /\ incomingMD ctx' = Some md_jaeger
        /\ outgoingKV ctx' = []).
Proof.
  split.
  - apply (public_endpoint_links_parent sample_FromBinary (sample_handler true)
             (sample_ctx md_both) sample_rti sample_parent);
      [reflexivity | left; vm_compute; reflexivity].
  - apply (public_endpoint_links_parent sample_FromBinary (sample_handler true)
             (sample_ctx md_jaeger) sample_rti sample_jaeger_parent);
      [reflexivity | right; split; [vm_compute; reflexivity|]].
    exists sample_jaeger. split; vm_compute; reflexivity.
Defined.

Lemma traceTagRPC_fallback_chain_witness :
  traceTagRPC sample_FromBinary (sample_handler false) (sample_ctx md_both)
    sample_rti
  = Returned (with_remote_parent (sample_handler false) (sample_ctx md_both)
                sample_rti sample_parent)
  /\ traceTagRPC sample_FromBinary (sample_handler false) (sample_ctx md_jaeger)
       sample_rti
     = Returned (with_remote_parent (sample_handler false) (sample_ctx md_jaeger)
                   sample_rti sample_jaeger_parent)
  /\ traceTagRPC sample_FromBinary (sample_handler false) (sample_ctx ∅)
       sample_rti
     = Returned (with_root (sample_handler false) (sample_ctx ∅) sample_rti []).
Proof.
  destruct (traceTagRPC_fallback_chain sample_FromBinary (sample_handler false)
              (sample_ctx md_both) sample_rti) as (Hprimary & _).
  destruct (traceTagRPC_fallback_chain sample_FromBinary (sample_handler false)
              (sample_ctx md_jaeger) sample_rti) as (_ & _ & Hsecondary & _).
  destruct (traceTagRPC_fallback_chain sample_FromBinary (sample_handler false)
              (sample_ctx ∅) sample_rti) as (_ & _ & _ & Hroot & _).
  split; [apply Hprimary; [vm_compute; reflexivity | reflexivity]|].
  split; [|apply Hroot; reflexivity].
  rewrite (Hsecondary sample_jaeger) by (vm_compute; reflexivity).
  reflexivity.
Defined.

(** C6: the last step of the chain is not always reached.  With no value
    under the primary key and a secondary header whose trace-id field decodes
    to 17 bytes, neither key yields a parent, yet no root span is started:
    the resolution panics in the decoder, before any call to the backend, on
    a public endpoint and on one that is not. *)
Theorem traceTagRPC_no_root_span :
  primary_parent sample_FromBinary
    (incoming (sample_ctx {[ jaegerContextKey := [long_trace_id] ]})) = None
  /\ secondary_header
       (incoming (sample_ctx {[ jaegerContextKey := [long_trace_id] ]}))
     = Some long_trace_id
  /\ (forall sc ok,
        spanContextFromJaeger long_trace_id <> Returned (sc, ok))
  /\ (forall public : bool,
        traceTagRPC sample_FromBinary (sample_handler public)
          (sample_ctx {[ jaegerContextKey := [long_trace_id] ]}) sample_rti
        = Panicked (SliceBoundsOutOfRange (-1)))
  /\ (forall public : bool,
        ~ returns
            (traceTagRPC sample_FromBinary (sample_handler public)
               (sample_ctx {[ jaegerContextKey := [long_trace_id] ]})
               sample_rti)).
Proof.
  assert (Hpanic : forall public : bool,
    traceTagRPC sample_FromBinary (sample_handler public)
      (sample_ctx {[ jaegerContextKey := [long_trace_id] ]}) sample_rti
    = Panicked (SliceBoundsOutOfRange (-1)))
    by (intros [|]; vm_compute; reflexivity).
  split; [vm_compute; reflexivity|]. split; [vm_compute; reflexivity|].
  split; [intros sc ok Hdec; vm_compute in Hdec; discriminate Hdec|].
  split; [exact Hpanic|].
  intros public [ctx' Hret]. rewrite Hpanic in Hret. discriminate Hret.
Qed.

Lemma relay_forwards_value_witness :
  JaegerTracePropagateUnaryInterceptor (sample_ctx md_unparsed) tt tt
    (fun c _ => outgoingKV c)
  = [(jaegerContextKey, "a:b:c")]
  /\ JaegerTracePropagateStreamInterceptor tt
       {| sample_stream_ctx := sample_ctx md_unparsed |} tt
       (fun _ w => outgoingKV (WrappedContext w))
     = [(jaegerContextKey, "a:b:c")].
Proof.
  destruct (relay_forwards_value (sample_ctx md_unparsed) md_unparsed "a:b:c"
              ["later"] eq_refl ltac:(vm_compute; reflexivity))
    as (_ & _ & _ & Hunary & Hstream).
  split; [now rewrite Hunary|].
  now rewrite (Hstream unit sample_stream unit _ sample_stream_ServerStream tt
                 {| sample_stream_ctx := sample_ctx md_unparsed |} tt _ eq_refl).
Defined.

Lemma traceHandleRPC_End_witness :
  backendCalls (traceHandleRPC (sample_ctx ∅) (End_ (Some (PlainError "boom"))))
  = [SetStatus {| Code := 13; Message := "boom" |}; SpanEnd]
  /\ backendCalls
       (traceHandleRPC (sample_ctx ∅) (End_ (Some (StatusError 5 "not found"))))
     = [SetStatus {| Code := 5; Message := "not found" |}; SpanEnd]
  /\ backendCalls (traceHandleRPC (sample_ctx ∅) (End_ (@None sample_error)))
     = [SpanEnd].
Proof.
  destruct (traceHandleRPC_End (sample_ctx ∅) (Some (PlainError "boom")))
    as (c1 & -> & _ & H1).
  destruct (H1 _ eq_refl) as (st1 & -> & _ & Hplain).
  rewrite (Hplain _ eq_refl).
  destruct (traceHandleRPC_End (sample_ctx ∅) (Some (StatusError 5 "not found")))
    as (c2 & -> & _ & H2).
  destruct (H2 _ eq_refl) as (st2 & -> & Hstatus & _).
  rewrite (Hstatus _ _ eq_refl).
  destruct (traceHandleRPC_End (sample_ctx ∅) (@None sample_error))
    as (c3 & -> & Hnone & _).
  rewrite (Hnone eq_refl).
  split; [reflexivity|]. split; reflexivity.
Defined.

Lemma only_first_values_count_witness :
  traceTagRPC sample_FromBinary (sample_handler false)
    (sample_ctx md_jaeger_first) sample_rti
  = (fun c => with_incoming c md_jaeger_first)
      <$> traceTagRPC sample_FromBinary (sample_handler false)
            (sample_ctx md_jaeger) sample_rti
  /\ JaegerTracePropagateUnaryInterceptor (sample_ctx md_jaeger_first) tt tt
       (fun c _ => outgoingKV c)
     = JaegerTracePropagateUnaryInterceptor (sample_ctx md_jaeger) tt tt
         (fun c _ => outgoingKV c).
Proof.
  destruct (only_first_values_count sample_FromBinary (sample_handler false)
              (sample_ctx ∅) sample_rti md_jaeger_first md_jaeger
              ltac:(vm_compute; reflexivity) ltac:(vm_compute; reflexivity))
    as (Hresolve & fwd & _ & Hrelay).
  split; [exact Hresolve|].
  destruct (Hrelay md_jaeger_first (or_introl eq_refl)) as (H1 & _).
  destruct (Hrelay md_jaeger (or_intror eq_refl)) as (H2 & _).
  change (sample_ctx md_jaeger_first)
    with (with_incoming (sample_ctx ∅) md_jaeger_first).
  change (sample_ctx md_jaeger) with (with_incoming (sample_ctx ∅) md_jaeger).
  now rewrite H1, H2.
Defined.

(** * Further properties *)

(** ** Hexadecimal fields *)

Lemma reverseHexTable_range (c : ascii) :
  is_hex_digit c = true -> 0 <= hex.reverseHexTable c <= 15.
Proof.
  unfold is_hex_digit, hex.reverseHexTable.
  set (n := Z.of_N (N_of_ascii c)).
  repeat match goal with
         | |- context [?a <=? ?b] => destruct (Z.leb_spec a b)
         end; cbn [andb] in *; intros Hd; try discriminate Hd; lia.
Qed.

Lemma is_hex_digit_ltb (c : ascii) :
  (15 <? hex.reverseHexTable c) = negb (is_hex_digit c).
Proof. unfold is_hex_digit. apply Z.ltb_antisym. Qed.

Lemma hex_byte (a b : Z) :
  0 <= a <= 15 -> 0 <= b <= 15 -> is_byte (Z.lor (Z.shiftl a 4) b).
Proof.
  intros Ha Hb. unfold is_byte.
  pose proof (Z.add_lor_land (Z.shiftl a 4) b) as Hadd.
  rewrite Z.shiftl_mul_pow2 in * by lia. change (2 ^ 4) with 16 in *.
  assert (0 <= Z.land (a * 16) b) by (apply Z.land_nonneg; lia).
  assert (0 <= Z.lor (a * 16) b) by (apply Z.lor_nonneg; lia).
  lia.
Qed.

Lemma all_hex_String (c : ascii) (s : string) :
  all_hex (String c s) = is_hex_digit c && all_hex s.
Proof. reflexivity. Qed.

(** [hex.DecodeString] on a string of [2 * n] characters. *)
Lemma DecodeString_even (n : nat) :
  forall s, String.length s = (2 * n)%nat ->
    (snd (hex.DecodeString s) = None <-> all_hex s = true)
    /\ (snd (hex.DecodeString s) = None ->
        List.length (fst (hex.DecodeString s)) = n)
    /\ snd (hex.DecodeString s) <> Some hex.ErrLength
    /\ Forall is_byte (fst (hex.DecodeString s)).
Proof.
  induction n as [|n IH]; intros s Hlen.
  - destruct s; [|discriminate]. cbn. repeat split; auto; discriminate.
  - destruct s as [|p [|q rest]]; try discriminate.
    { cbn in Hlen. lia. }
    assert (Hrest : String.length rest = (2 * n)%nat) by (cbn in Hlen; lia).
    destruct (IH rest Hrest) as (Hiff & Hn & Hnl & Hbytes).
    cbn [hex.DecodeString]. rewrite !all_hex_String, !is_hex_digit_ltb.
    destruct (is_hex_digit p) eqn:Hp; cbn [negb andb].
    2:{ cbn. repeat split; auto; discriminate. }
    destruct (is_hex_digit q) eqn:Hq; cbn [negb andb].
    2:{ cbn. repeat split; auto; discriminate. }
    destruct (hex.DecodeString rest) as [bs err]. cbn [fst snd] in *.
    split; [exact Hiff|]. split; [intros He; cbn; now rewrite Hn|].
    split; [exact Hnl|].
    constructor; [|exact Hbytes].
    apply hex_byte; now apply reverseHexTable_range.
Qed.

Lemma strlen_parity (h : string) :
  Z.rem (strlen h) 2 = 0 /\ Nat.even (String.length h) = true
  \/ Z.rem (strlen h) 2 = 1 /\ Nat.even (String.length h) = false.
Proof.
  unfold strlen. rewrite Z.rem_mod_nonneg by lia.
  destruct (Nat.even (String.length h)) eqn:He.
  - left. apply Nat.even_spec in He as [k ->]. split; [|reflexivity].
    rewrite Nat2Z.inj_mul, Z.mul_comm. apply Z.mod_mul. lia.
  - right. split; [|reflexivity].
    assert (Ho : Nat.odd (String.length h) = true)
      by (rewrite <- Nat.negb_even, He; reflexivity).
    apply Nat.odd_spec in Ho as [k ->].
    rewrite Nat2Z.inj_add, Nat2Z.inj_mul, Z.mul_comm, Z.add_comm.
    now rewrite Z.mod_add by lia.
Qed.

(** The padded field and the number of bytes it decodes to. *)
Lemma hexDecodePadded_even (h : string) :
  exists (s : string) (n : nat),
    hexDecodePadded h = hex.DecodeString s
    /\ String.length s = (2 * n)%nat
    /\ all_hex s = all_hex h
    /\ 2 * Z.of_nat n = strlen h + Z.rem (strlen h) 2.
Proof.
  unfold hexDecodePadded.
  destruct (strlen_parity h) as [[Hr He] | [Hr He]]; rewrite Hr; cbn [Z.eqb negb].
  - apply Nat.even_spec in He as [k Hk]. exists h, k.
    repeat split; auto. unfold strlen. lia.
  - assert (Ho : Nat.odd (String.length h) = true)
      by (rewrite <- Nat.negb_even, He; reflexivity).
    apply Nat.odd_spec in Ho as [k Hk]. exists (String "0" h), (S k).
    split; [reflexivity|]. split; [cbn; lia|]. split; [reflexivity|].
    unfold strlen. lia.
Qed.

(** X1: the decode helper succeeds exactly on the fields made of hexadecimal
    digits only (the empty field included), with one byte for every two
    digits, an odd digit counting as two; it never reports an odd length,
    and what it returns are bytes. *)
Theorem hexDecodePadded_digits (h : string) :
  (snd (hexDecodePadded h) = None <-> all_hex h = true)
  /\ (snd (hexDecodePadded h) = None ->
      2 * len (fst (hexDecodePadded h)) = strlen h + Z.rem (strlen h) 2)
  /\ snd (hexDecodePadded h) <> Some hex.ErrLength
  /\ Forall is_byte (fst (hexDecodePadded h)).
Proof.
  destruct (hexDecodePadded_even h) as (s & n & -> & Hlen & Hall & Hn).
  destruct (DecodeString_even n s Hlen) as (Hiff & Hcount & Hnl & Hbytes).
  rewrite <- Hall. split; [exact Hiff|]. split; [|split; assumption].
  intros He. unfold len. rewrite (Hcount He). exact Hn.
Qed.

Lemma hexDecodePadded_digits_witness :
  hexDecodePadded "463" = ([4; 99], None)
  /\ 2 * len (fst (hexDecodePadded "463")) = strlen "463" + Z.rem (strlen "463") 2
  /\ snd (hexDecodePadded "4g3") <> None.
Proof.
  destruct (hexDecodePadded_digits "463") as (Hiff & Hcount & _).
  destruct (hexDecodePadded_digits "4g3") as (Hbad & _).
  split; [reflexivity|]. split; [apply Hcount; reflexivity|].
  intros He. apply Hbad in He. discriminate He.
Defined.

Lemma hexDecodePadded_spec (h : string) (b : list Z) (e : option hex.error) :
  hexDecodePadded h = (b, e) ->
  (e = None <-> all_hex h = true)
  /\ (e = None -> 2 * len b = strlen h + Z.rem (strlen h) 2)
  /\ Forall is_byte b.
Proof.
  intros Hh.
  destruct (hexDecodePadded_even h) as (s & n & Hs & Hlen & Hall & Hn).
  destruct (DecodeString_even n s Hlen) as (Hiff & Hcount & _ & Hbytes).
  rewrite <- Hs, Hh in *. cbn [fst snd] in *. rewrite <- Hall.
  split; [exact Hiff|]. split; [|exact Hbytes].
  intros He. unfold len. rewrite (Hcount He). exact Hn.
Qed.

(** The number of decoded bytes against the number of digits. *)
Lemma decoded_length_bound (h : string) (b : list Z) (n : Z) :
  hexDecodePadded h = (b, None) -> (len b <= n <-> strlen h <= 2 * n).
Proof.
  intros Hh. destruct (hexDecodePadded_spec h b None Hh) as (_ & Hlen & _).
  specialize (Hlen eq_refl).
  destruct (strlen_parity h) as [[Hr _] | [Hr _]]; rewrite Hr in Hlen; lia.
Qed.

(** ** The textual decoder: errors, bounds and what is ignored *)

Section FourFieldsErrors.

Variables (jv p0 p1 p2 p3 : string) (b0 b1 : list Z).
Hypothesis Hsplit : strings_Split jv ":" = [p0; p1; p2; p3].

Lemma spanContextFromJaeger_trace_error (e : hex.error) :
  hexDecodePadded p0 = (b0, Some e) ->
  spanContextFromJaeger jv = Returned (zeroSpanContext, false).
Proof.
  intros H0. unfold spanContextFromJaeger. now rewrite Hsplit, H0.
Qed.

Lemma spanContextFromJaeger_span_error (e : hex.error) :
  hexDecodePadded p0 = (b0, None) ->
  len b0 <= 16 ->
  hexDecodePadded p1 = (b1, Some e) ->
  spanContextFromJaeger jv
  = Returned (withTraceID zeroSpanContext (aligned 16 b0), false).
Proof.
  intros H0 Hlen H1. unfold spanContextFromJaeger.
  rewrite Hsplit, H0. cbn [zeroSpanContext TraceID].
  replace (8 + (8 - len b0)) with (16 - len b0) by lia.
  rewrite (copy_from_aligned 16) by (unfold len in Hlen; lia).
  destruct (len b0 <=? 8); cbn [bind]; now rewrite H1.
Qed.

End FourFieldsErrors.

(** X2: the decoder reports [ok = false] in two cases only, both on a header
    of four fields: the trace-id field is not hexadecimal (the zero span
    context is returned), or it is, in at most 32 digits, and the span-id
    field is not hexadecimal (the span context then already holds the trace
    id). *)
Theorem spanContextFromJaeger_not_ok (jv : string) (sc : SpanContext) :
  spanContextFromJaeger jv = Returned (sc, false)
  <-> exists p0 p1 p2 p3,
        strings_Split jv ":" = [p0; p1; p2; p3]
        /\ ((all_hex p0 = false /\ sc = zeroSpanContext)
            \/ (all_hex p0 = true /\ strlen p0 <= 32 /\ all_hex p1 = false
                /\ sc = withTraceID zeroSpanContext
                          (aligned 16 (fst (hexDecodePadded p0))))).
Proof.
  split.
  - intros Hres.
    destruct (strings_Split jv ":") as [|p0 [|p1 [|p2 [|p3 [|p4 l]]]]] eqn:Hs;
      try (rewrite spanContextFromJaeger_other_count in Hres
             by (rewrite Hs; cbn; lia); discriminate Hres).
    exists p0, p1, p2, p3. split; [reflexivity|].
    destruct (hexDecodePadded p0) as [b0 e0] eqn:H0.
    destruct (hexDecodePadded_spec p0 b0 e0 H0) as (Hhex0 & _).
    destruct e0 as [e0|].
    + rewrite (spanContextFromJaeger_trace_error jv p0 p1 p2 p3 b0 Hs e0 H0)
        in Hres.
      injection Hres as <-. left. split; [|reflexivity].
      destruct (all_hex p0); [|reflexivity].
      discriminate (proj2 Hhex0 eq_refl).
    + pose proof (decoded_length_bound p0 b0 16 H0) as Hb.
      destruct (Z.le_gt_cases (len b0) 16) as [Hle|Hgt].
      2:{ rewrite (spanContextFromJaeger_long_trace_id jv p0 p1 p2 p3 b0 Hs H0)
            in Hres by lia. discriminate Hres. }
      destruct (hexDecodePadded p1) as [b1 e1] eqn:H1.
      destruct (hexDecodePadded_spec p1 b1 e1 H1) as (Hhex1 & _).
      destruct e1 as [e1|].
      * rewrite (spanContextFromJaeger_span_error jv p0 p1 p2 p3 b0 b1 Hs e1
                   H0 Hle H1) in Hres.
        injection Hres as <-. right. cbn [fst].
        split; [now apply Hhex0|]. split; [apply Hb in Hle; lia|].
        split; [|reflexivity].
        destruct (all_hex p1); [|reflexivity].
        discriminate (proj2 Hhex1 eq_refl).
      * destruct (Z.le_gt_cases (len b1) 8) as [Hle1|Hgt1].
        -- rewrite (spanContextFromJaeger_aligned jv p0 p1 p2 p3 b0 b1 Hs H0 H1)
             in Hres by lia. discriminate Hres.
        -- rewrite (spanContextFromJaeger_long_span_id jv p0 p1 p2 p3 b0 b1 Hs
                      H0 H1) in Hres by lia. discriminate Hres.
  - intros (p0 & p1 & p2 & p3 & Hs & Hcase).
    destruct (hexDecodePadded p0) as [b0 e0] eqn:H0.
    destruct (hexDecodePadded_spec p0 b0 e0 H0) as (Hhex0 & _).
    destruct Hcase as [(Hbad & ->) | (Hgood & Hlen & Hbad & ->)].
    + destruct e0 as [e0|].
      * exact (spanContextFromJaeger_trace_error jv p0 p1 p2 p3 b0 Hs e0 H0).
      * rewrite (proj1 Hhex0 eq_refl) in Hbad. discriminate Hbad.
    + destruct e0 as [e0|]; [discriminate (proj2 Hhex0 Hgood)|].
      destruct (hexDecodePadded p1) as [b1 e1] eqn:H1.
      destruct (hexDecodePadded_spec p1 b1 e1 H1) as (Hhex1 & _).
      destruct e1 as [e1|].
      * cbn [fst].
        apply (spanContextFromJaeger_span_error jv p0 p1 p2 p3 b0 b1 Hs e1);
          auto.
        apply (decoded_length_bound p0 b0 16 H0). lia.
      * rewrite (proj1 Hhex1 eq_refl) in Hbad. discriminate Hbad.
Qed.

Lemma spanContextFromJaeger_not_ok_witness :
  spanContextFromJaeger "zz:1:0:1" = Returned (zeroSpanContext, false)
  /\ spanContextFromJaeger "2a:xyz:0:1"
     = Returned (withTraceID zeroSpanContext (aligned 16 [42]), false).
Proof.
  split.
  - apply (spanContextFromJaeger_not_ok "zz:1:0:1" zeroSpanContext).
    exists "zz"%string, "1"%string, "0"%string, "1"%string.
    split; [reflexivity|]. left. split; reflexivity.
  - apply (spanContextFromJaeger_not_ok "2a:xyz:0:1").
    exists "2a"%string, "xyz"%string, "0"%string, "1"%string.
    split; [reflexivity|]. right.
    split; [reflexivity|]. split; [vm_compute; discriminate|].
    split; reflexivity.
Defined.

(** The decoder on a header of four fields, by what the two hexadecimal
    fields are.  Field 2 does not occur. *)
Lemma spanContextFromJaeger_four (jv p0 p1 p2 p3 : string) :
  strings_Split jv ":" = [p0; p1; p2; p3] ->
  spanContextFromJaeger jv
  = if negb (all_hex p0) then Returned (zeroSpanContext, false)
    else if 32 <? strlen p0
    then Panicked (SliceBoundsOutOfRange (16 - len (fst (hexDecodePadded p0))))
    else if negb (all_hex p1)
    then Returned (withTraceID zeroSpanContext
                     (aligned 16 (fst (hexDecodePadded p0))), false)
    else if 16 <? strlen p1
    then Panicked (SliceBoundsOutOfRange (8 - len (fst (hexDecodePadded p1))))
    else Returned
           ({| TraceID := aligned 16 (fst (hexDecodePadded p0));
               SpanID := aligned 8 (fst (hexDecodePadded p1));
               TraceOptions := if String.eqb p3 "1" then 1 else 0 |}, true).
Proof.
  intros Hs.
  destruct (hexDecodePadded p0) as [b0 e0] eqn:H0.
  destruct (hexDecodePadded_spec p0 b0 e0 H0) as (Hx0 & _).
  destruct e0 as [e0|].
  { assert (Ha : all_hex p0 = false)
      by (destruct (all_hex p0); [discriminate (proj2 Hx0 eq_refl) | reflexivity]).
    rewrite Ha. cbn [negb].
    exact (spanContextFromJaeger_trace_error jv p0 p1 p2 p3 b0 Hs e0 H0). }
  rewrite (proj1 Hx0 eq_refl). cbn [negb fst].
  pose proof (decoded_length_bound p0 b0 16 H0) as Hb0.
  destruct (Z.ltb_spec 32 (strlen p0)) as [Hlong0|Hfit0].
  { apply (spanContextFromJaeger_long_trace_id jv p0 p1 p2 p3 b0 Hs H0). lia. }
  assert (Hle0 : len b0 <= 16) by (apply Hb0; lia).
  destruct (hexDecodePadded p1) as [b1 e1] eqn:H1.
  destruct (hexDecodePadded_spec p1 b1 e1 H1) as (Hx1 & _).
  destruct e1 as [e1|].
  { assert (Ha : all_hex p1 = false)
      by (destruct (all_hex p1); [discriminate (proj2 Hx1 eq_refl) | reflexivity]).
    rewrite Ha. cbn [negb].
    exact (spanContextFromJaeger_span_error jv p0 p1 p2 p3 b0 b1 Hs e1 H0 Hle0 H1). }
  rewrite (proj1 Hx1 eq_refl). cbn [negb fst].
  pose proof (decoded_length_bound p1 b1 8 H1) as Hb1.
  destruct (Z.ltb_spec 16 (strlen p1)) as [Hlong1|Hfit1].
  { apply (spanContextFromJaeger_long_span_id jv p0 p1 p2 p3 b0 b1 Hs H0 H1);
      lia. }
  apply (spanContextFromJaeger_aligned jv p0 p1 p2 p3 b0 b1 Hs H0 H1); lia.
Qed.

(** X3: the decoder panics exactly on the headers of four fields whose
    trace-id field is hexadecimal and either has more than 32 digits, or is
    followed by a hexadecimal span-id field of more than 16 digits.  On every
    other string it returns. *)
Theorem spanContextFromJaeger_panics_iff (jv : string) :
  (exists e, spanContextFromJaeger jv = Panicked e)
  <-> exists p0 p1 p2 p3,
        strings_Split jv ":" = [p0; p1; p2; p3]
        /\ all_hex p0 = true
        /\ (32 < strlen p0 \/ (all_hex p1 = true /\ 16 < strlen p1)).
Proof.
  split.
  - intros [e Hres].
    destruct (strings_Split jv ":") as [|p0 [|p1 [|p2 [|p3 [|p4 l]]]]] eqn:Hs;
      try (rewrite spanContextFromJaeger_other_count in Hres
             by (rewrite Hs; cbn; lia); discriminate Hres).
    exists p0, p1, p2, p3. split; [reflexivity|].
    rewrite (spanContextFromJaeger_four jv p0 p1 p2 p3 Hs) in Hres.
    destruct (all_hex p0); cbn [negb] in Hres; [|discriminate Hres].
    split; [reflexivity|].
    destruct (Z.ltb_spec 32 (strlen p0)); [now left|].
    destruct (all_hex p1); cbn [negb] in Hres; [|discriminate Hres].
    destruct (Z.ltb_spec 16 (strlen p1)); [now right | discriminate Hres].
  - intros (p0 & p1 & p2 & p3 & Hs & Hhex & Hlong).
    rewrite (spanContextFromJaeger_four jv p0 p1 p2 p3 Hs), Hhex. cbn [negb].
    destruct (Z.ltb_spec 32 (strlen p0)); [eauto|].
    destruct Hlong as [Hlong | [-> Hlong]]; [lia|]. cbn [negb].
    destruct (Z.ltb_spec 16 (strlen p1)); [eauto | lia].
Qed.

Lemma spanContextFromJaeger_panics_iff_witness :
  (exists e, spanContextFromJaeger long_span_id = Panicked e)
  /\ ~ (exists e, spanContextFromJaeger
                    "zz000000000000000000000000000000000:1:0:1" = Panicked e).
Proof.
  split.
  - apply (spanContextFromJaeger_panics_iff long_span_id).
    exists "1"%string, "010000000000000000"%string, "0"%string, "1"%string.
    split; [reflexivity|]. split; [reflexivity|]. right.
    split; [reflexivity | vm_compute; reflexivity].
  - intros Hp.
    apply (spanContextFromJaeger_panics_iff
             "zz000000000000000000000000000000000:1:0:1") in Hp.
    destruct Hp as (p0 & p1 & p2 & p3 & Hs & Hhex & _).
    injection Hs as <- <- <- <-. discriminate Hhex.
Defined.

(** X4: field 2, the parent span id of the foreign format, is never read:
    two headers of four fields that differ in field 2 only are decoded
    alike, whether to a span context, to a failure or to a panic. *)
Theorem spanContextFromJaeger_ignores_field_2
    (jv jv' p0 p1 p2 p2' p3 : string) :
  strings_Split jv ":" = [p0; p1; p2; p3] ->
  strings_Split jv' ":" = [p0; p1; p2'; p3] ->
  spanContextFromJaeger jv' = spanContextFromJaeger jv.
Proof.
  intros Hs Hs'.
  now rewrite (spanContextFromJaeger_four jv p0 p1 p2 p3 Hs),
              (spanContextFromJaeger_four jv' p0 p1 p2' p3 Hs').
Qed.

Lemma spanContextFromJaeger_ignores_field_2_witness :
  spanContextFromJaeger "463ac35c9f6413ad:2b:not hex at all:1"
  = spanContextFromJaeger "463ac35c9f6413ad:2b:0:1".
Proof.
  apply (spanContextFromJaeger_ignores_field_2
           "463ac35c9f6413ad:2b:0:1" "463ac35c9f6413ad:2b:not hex at all:1"
           "463ac35c9f6413ad" "2b" "0" "not hex at all" "1");
    reflexivity.
Defined.

(** X5: a header of four fields with a hexadecimal trace id of at most 32
    digits and a hexadecimal span id of at most 16 digits decodes with
    [ok = true].  Both ids are right-aligned and zero-filled on the left; a
    trace id of at most 16 digits leaves the upper 8 bytes zero; the sampled
    bit is set exactly when field 3 is the string [1]. *)
Theorem spanContextFromJaeger_decodes (jv p0 p1 p2 p3 : string) :
  strings_Split jv ":" = [p0; p1; p2; p3] ->
  all_hex p0 = true -> strlen p0 <= 32 ->
  all_hex p1 = true -> strlen p1 <= 16 ->
  exists sc,
    spanContextFromJaeger jv = Returned (sc, true)
    /\ List.length (TraceID sc) = 16%nat
    /\ List.length (SpanID sc) = 8%nat
    /\ drop (16 - List.length (fst (hexDecodePadded p0))) (TraceID sc)
       = fst (hexDecodePadded p0)
    /\ take (16 - List.length (fst (hexDecodePadded p0))) (TraceID sc)
       = replicate (16 - List.length (fst (hexDecodePadded p0))) 0
    /\ drop (8 - List.length (fst (hexDecodePadded p1))) (SpanID sc)
       = fst (hexDecodePadded p1)
    /\ take (8 - List.length (fst (hexDecodePadded p1))) (SpanID sc)
       = replicate (8 - List.length (fst (hexDecodePadded p1))) 0
    /\ (strlen p0 <= 16 -> take 8 (TraceID sc) = replicate 8 0)
    /\ (TraceOptions sc = 1 <-> p3 = "1"%string)
    /\ (TraceOptions sc = 0 <-> p3 <> "1"%string).
Proof.
  intros Hs Hhex0 Hlen0 Hhex1 Hlen1.
  rewrite (spanContextFromJaeger_four jv p0 p1 p2 p3 Hs), Hhex0, Hhex1.
  cbn [negb].
  destruct (Z.ltb_spec 32 (strlen p0)); [lia|].
  destruct (Z.ltb_spec 16 (strlen p1)); [lia|].
  destruct (hexDecodePadded p0) as [b0 e0] eqn:Hd0.
  destruct (hexDecodePadded_spec p0 b0 e0 Hd0) as (Hx0 & _).
  destruct (hexDecodePadded p1) as [b1 e1] eqn:Hd1.
  destruct (hexDecodePadded_spec p1 b1 e1 Hd1) as (Hx1 & _).
  apply Hx0 in Hhex0 as ->. apply Hx1 in Hhex1 as ->. cbn [fst].
  assert (Hb0 : (List.length b0 <= 16)%nat).
  { pose proof (proj2 (decoded_length_bound p0 b0 16 Hd0)) as Hb.
    unfold len in Hb. lia. }
  assert (Hb1 : (List.length b1 <= 8)%nat).
  { pose proof (proj2 (decoded_length_bound p1 b1 8 Hd1)) as Hb.
    unfold len in Hb. lia. }
  eexists. split; [reflexivity|]. cbn [TraceID SpanID TraceOptions].
  unfold aligned.
  assert (Hr : forall n, List.length (replicate n 0) = n)
    by (intros; apply length_replicate).
  repeat split.
  - rewrite length_app, Hr. lia.
  - rewrite length_app, Hr. lia.
  - now rewrite drop_app_length' by now rewrite Hr.
  - now rewrite take_app_length' by now rewrite Hr.
  - now rewrite drop_app_length' by now rewrite Hr.
  - now rewrite take_app_length' by now rewrite Hr.
  - intros Hshort.
    assert (Hb8 : (List.length b0 <= 8)%nat).
    { pose proof (proj2 (decoded_length_bound p0 b0 8 Hd0)) as Hb.
      unfold len in Hb. lia. }
    rewrite take_app_le by (rewrite Hr; lia).
    rewrite take_replicate. f_equal. lia.
  - destruct (String.eqb_spec p3 "1"); intros; congruence.
  - destruct (String.eqb_spec p3 "1"); intros; congruence.
  - destruct (String.eqb_spec p3 "1"); intros; congruence.
  - destruct (String.eqb_spec p3 "1"); intros; congruence.
Qed.

Lemma spanContextFromJaeger_decodes_witness :
  exists sc,
    spanContextFromJaeger "abc:1f:0:01" = Returned (sc, true)
    /\ drop 14 (TraceID sc) = [10; 188]
    /\ take 8 (TraceID sc) = replicate 8 0
    /\ drop 7 (SpanID sc) = [31]
    /\ TraceOptions sc = 0.
Proof.
  destruct (spanContextFromJaeger_decodes "abc:1f:0:01" "abc" "1f" "0" "01")
    as (sc & Hres & _ & _ & Htrace & _ & Hspan & _ & Hupper & _ & Hzero);
    try reflexivity; try (vm_compute; discriminate).
  exists sc. split; [exact Hres|]. split; [exact Htrace|].
  split; [apply Hupper; vm_compute; discriminate|]. split; [exact Hspan|].
  apply Hzero. discriminate.
Defined.

(** ** Leading zeros and the shape of the decoded ids *)

Lemma hexDecodePadded_zero_digit (h : string) :
  hexDecodePadded (String "0" h)
  = if Z.rem (strlen h) 2 =? 0
    then (0 :: fst (hexDecodePadded h), snd (hexDecodePadded h))
    else hexDecodePadded h.
Proof.
  destruct (strlen_parity h) as [[Hr He] | [Hr He]],
           (strlen_parity (String "0" h)) as [[Hr' He'] | [Hr' He']];
    cbn [String.length] in He';
    rewrite Nat.even_succ, <- Nat.negb_even, He in He'; try discriminate He';
    unfold hexDecodePadded; rewrite Hr, Hr'; cbn [Z.eqb negb].
  - cbn [hex.DecodeString]. change (hex.reverseHexTable "0") with 0.
    cbn [Z.ltb Z.compare Z.shiftl Z.lor].
    now destruct (hex.DecodeString h).
  - reflexivity.
Qed.

Lemma aligned_cons_zero (n : nat) (b : list Z) :
  (List.length b < n)%nat -> aligned n (0 :: b) = aligned n b.
Proof.
  intros Hlt. unfold aligned. cbn [List.length].
  replace (n - List.length b)%nat with (S (n - S (List.length b))) by lia.
  now rewrite replicate_S_end, <- app_assoc.
Qed.

Lemma aligned_leading_zero (h : string) (n : nat) :
  all_hex h = true -> strlen h < 2 * Z.of_nat n ->
  aligned n (fst (hexDecodePadded (String "0" h)))
  = aligned n (fst (hexDecodePadded h)).
Proof.
  intros Hhex Hlen. rewrite hexDecodePadded_zero_digit.
  destruct (Z.eqb_spec (Z.rem (strlen h) 2) 0) as [Hr|_]; [|reflexivity].
  cbn [fst]. destruct (hexDecodePadded h) as [b e] eqn:Hh.
  destruct (hexDecodePadded_spec h b e Hh) as (Hx & Hcount & _).
  apply Hx in Hhex as ->. specialize (Hcount eq_refl). cbn [fst].
  apply aligned_cons_zero. unfold len in Hcount. lia.
Qed.

Lemma aligned_wellformed (h : string) (n : nat) :
  all_hex h = true -> strlen h <= 2 * Z.of_nat n ->
  List.length (aligned n (fst (hexDecodePadded h))) = n
  /\ Forall is_byte (aligned n (fst (hexDecodePadded h))).
Proof.
  intros Hhex Hlen. destruct (hexDecodePadded h) as [b e] eqn:Hh.
  destruct (hexDecodePadded_spec h b e Hh) as (Hx & Hcount & Hbytes).
  apply Hx in Hhex as ->. specialize (Hcount eq_refl). cbn [fst].
  unfold aligned. split.
  - rewrite length_app, length_replicate.
    destruct (strlen_parity h) as [[Hr _] | [Hr _]];
      rewrite Hr in Hcount; unfold len in Hcount; lia.
  - apply Forall_app. split; [|exact Hbytes].
    apply Forall_replicate. unfold is_byte. lia.
Qed.

(** X6: one more ['0'] in front of the trace-id field, while the field has
    fewer than 32 characters, or in front of the span-id field, while it has
    fewer than 16, does not change what the header decodes to. *)
Theorem spanContextFromJaeger_leading_zero (jv jv' p0 p1 p2 p3 : string) :
  strings_Split jv ":" = [p0; p1; p2; p3] ->
  (strings_Split jv' ":" = [String "0" p0; p1; p2; p3] ->
   strlen p0 < 32 ->
   spanContextFromJaeger jv' = spanContextFromJaeger jv)
  /\ (strings_Split jv' ":" = [p0; String "0" p1; p2; p3] ->
      strlen p1 < 16 ->
      spanContextFromJaeger jv' = spanContextFromJaeger jv).
Proof.
  intros Hs. rewrite (spanContextFromJaeger_four jv p0 p1 p2 p3 Hs).
  split; intros Hs' Hlen.
  - rewrite (spanContextFromJaeger_four jv' _ p1 p2 p3 Hs').
    rewrite all_hex_String, strlen_String.
    change (is_hex_digit "0") with true. cbn [andb].
    destruct (all_hex p0) eqn:Hhex; cbn [negb]; [|reflexivity].
    destruct (Z.ltb_spec 32 (1 + strlen p0)); [lia|].
    destruct (Z.ltb_spec 32 (strlen p0)); [lia|].
    now rewrite (aligned_leading_zero p0 16 Hhex) by lia.
  - rewrite (spanContextFromJaeger_four jv' p0 _ p2 p3 Hs').
    rewrite all_hex_String, strlen_String.
    change (is_hex_digit "0") with true. cbn [andb].
    destruct (all_hex p1) eqn:Hhex; cbn [negb]; [|reflexivity].
    destruct (Z.ltb_spec 16 (1 + strlen p1)); [lia|].
    destruct (Z.ltb_spec 16 (strlen p1)); [lia|].
    now rewrite (aligned_leading_zero p1 8 Hhex) by lia.
Qed.

Lemma spanContextFromJaeger_leading_zero_witness :
  spanContextFromJaeger "0463ac35c9f6413ad:0:0:1"
  = spanContextFromJaeger "463ac35c9f6413ad:0:0:1"
  /\ spanContextFromJaeger "463ac35c9f6413ad:00:0:1"
     = spanContextFromJaeger "463ac35c9f6413ad:0:0:1".
Proof.
  split.
  - apply (proj1 (spanContextFromJaeger_leading_zero
                    "463ac35c9f6413ad:0:0:1" "0463ac35c9f6413ad:0:0:1"
                    "463ac35c9f6413ad" "0" "0" "1" eq_refl));
      [reflexivity | vm_compute; reflexivity].
  - apply (proj2 (spanContextFromJaeger_leading_zero
                    "463ac35c9f6413ad:0:0:1" "463ac35c9f6413ad:00:0:1"
                    "463ac35c9f6413ad" "0" "0" "1" eq_refl));
      [reflexivity | vm_compute; reflexivity].
Defined.

(** X7: whatever the decoder returns, with [ok] or without, is a span
    context of the right shape: 16 bytes of trace id, 8 bytes of span id, and
    options that are 0 or 1. *)
Theorem spanContextFromJaeger_wellformed (jv : string) (sc : SpanContext)
    (ok : bool) :
  spanContextFromJaeger jv = Returned (sc, ok) ->
  List.length (TraceID sc) = 16%nat
  /\ List.length (SpanID sc) = 8%nat
  /\ Forall is_byte (TraceID sc)
  /\ Forall is_byte (SpanID sc)
  /\ (TraceOptions sc = 0 \/ TraceOptions sc = 1).
Proof.
  assert (Hzero : forall n, Forall is_byte (replicate n 0))
    by (intros; apply Forall_replicate; unfold is_byte; lia).
  intros Hres.
  destruct (strings_Split jv ":") as [|p0 [|p1 [|p2 [|p3 [|p4 l]]]]] eqn:Hs;
    try (rewrite spanContextFromJaeger_other_count in Hres
           by (rewrite Hs; cbn; lia);
         injection Hres as <- <-;
         solve [cbn [zeroSpanContext TraceID SpanID TraceOptions];
                repeat split; auto]).
  rewrite (spanContextFromJaeger_four jv p0 p1 p2 p3 Hs) in Hres.
  destruct (all_hex p0) eqn:Hhex0; cbn [negb] in Hres;
    [|injection Hres as <- <-;
      solve [cbn [zeroSpanContext withTraceID TraceID SpanID TraceOptions];
             repeat split; auto]].
  destruct (Z.ltb_spec 32 (strlen p0)); [discriminate Hres|].
  destruct (aligned_wellformed p0 16 Hhex0 ltac:(lia)) as (Hl0 & Hb0).
  destruct (all_hex p1) eqn:Hhex1; cbn [negb] in Hres;
    [|injection Hres as <- <-;
      solve [cbn [zeroSpanContext withTraceID TraceID SpanID TraceOptions];
             repeat split; auto]].
  destruct (Z.ltb_spec 16 (strlen p1)); [discriminate Hres|].
  destruct (aligned_wellformed p1 8 Hhex1 ltac:(lia)) as (Hl1 & Hb1).
  injection Hres as <- <-. cbn [TraceID SpanID TraceOptions].
  repeat (split; [assumption|]).
  destruct (String.eqb p3 "1"); auto.
Qed.

Lemma spanContextFromJaeger_wellformed_witness :
  List.length (TraceID sample_jaeger_parent) = 16%nat
  /\ List.length (SpanID sample_jaeger_parent) = 8%nat
  /\ Forall is_byte (TraceID sample_jaeger_parent)
  /\ Forall is_byte (SpanID sample_jaeger_parent)
  /\ (TraceOptions sample_jaeger_parent = 0
      \/ TraceOptions sample_jaeger_parent = 1).
Proof.
  apply (spanContextFromJaeger_wellformed sample_jaeger sample_jaeger_parent
           true).
  reflexivity.
Defined.

(** ** The resolver: what it calls, what it trusts, when it returns *)

Section ResolverFrame.

Context {trace_Sampler : Type}.
Variable FromBinary : string -> SpanContext * bool.
Implicit Types (s : ServerHandler trace_Sampler) (ctx : Context trace_Sampler).
Implicit Types (rti : RPCTagInfo) (p : SpanContext).

(** The three contexts that [traceTagRPC] can return. *)
Lemma traceTagRPC_outcomes s ctx rti ctx' :
  traceTagRPC FromBinary s ctx rti = Returned ctx' ->
  (exists p, IsPublicEndpoint s = false
             /\ ctx' = with_remote_parent s ctx rti p)
  \/ ctx' = with_root s ctx rti []
  \/ (exists p, IsPublicEndpoint s = true
                /\ ctx' = with_root s ctx rti [child_link p]).
Proof.
  intros Hres.
  destruct (primary_parent FromBinary (incoming ctx)) as [p|] eqn:Hprim.
  - rewrite (traceTagRPC_unfold_primary FromBinary s ctx rti p Hprim) in Hres.
    injection Hres as <-. destruct (IsPublicEndpoint s); eauto 6.
  - rewrite (traceTagRPC_unfold_jaeger FromBinary s ctx rti Hprim) in Hres.
    destruct (secondary_header (incoming ctx)) as [jv|].
    + destruct (spanContextFromJaeger jv) as [[p [|]]|e];
        cbn [bind fst snd] in Hres; [| |discriminate];
        injection Hres as <-; [destruct (IsPublicEndpoint s)|]; eauto 6.
    + injection Hres as <-. eauto.
Qed.

(** X8: a resolution that returns has started exactly one span, of kind
    server, named after the method and under the handler's sampler, and has
    added at most one link to it; it has made no other backend call and has
    left the incoming and the outgoing metadata as they were. *)
Theorem traceTagRPC_one_span s ctx rti ctx' :
  traceTagRPC FromBinary s ctx rti = Returned ctx' ->
  incomingMD ctx' = incomingMD ctx
  /\ outgoingKV ctx' = outgoingKV ctx
  /\ exists start links,
       backendCalls ctx' = backendCalls ctx ++ start :: map AddLink links
       /\ (start = StartSpan (span_name rti) SpanKindServer
                     (Sampler (ServerStartOptions s))
           \/ exists p,
                start = StartSpanWithRemoteParent (span_name rti) p
                          SpanKindServer (Sampler (ServerStartOptions s)))
       /\ (List.length links <= 1)%nat
       /\ Forall (fun l => Type_ l = LinkTypeChild) links.
Proof.
  intros Hres.
  destruct (traceTagRPC_outcomes s ctx rti ctx' Hres)
    as [(p & _ & ->) | [-> | (p & _ & ->)]];
    (split; [reflexivity|]); (split; [reflexivity|]).
  - eexists _, []. split; [reflexivity|]. split; [right; eauto|].
    split; [cbn; lia | constructor].
  - eexists _, []. split; [reflexivity|]. split; [now left|].
    split; [cbn; lia | constructor].
  - eexists _, [child_link p]. split; [reflexivity|]. split; [now left|].
    split; [cbn; lia | repeat constructor].
Qed.

(** X9: a public endpoint never starts its span under a remote parent,
    whatever the metadata hold; an endpoint that is not public never adds a
    link. *)
Theorem traceTagRPC_trust s ctx rti ctx' :
  traceTagRPC FromBinary s ctx rti = Returned ctx' ->
  exists new,
    backendCalls ctx' = backendCalls ctx ++ new
    /\ (IsPublicEndpoint s = true ->
        Forall (fun c => is_remote_start c = false) new)
    /\ (IsPublicEndpoint s = false ->
        Forall (fun c => is_link c = false) new).
Proof.
  intros Hres.
  destruct (traceTagRPC_outcomes s ctx rti ctx' Hres)
    as [(p & Hpub & ->) | [-> | (p & Hpub & ->)]];
    eexists; (split; [reflexivity|]); rewrite ?Hpub;
    split; intros Hp; try discriminate Hp; repeat constructor.
Qed.

(** X10: the only panic of a resolution is the panic of the textual decoder,
    and it is reached only when the primary key gives no parent: a primary
    value that decodes keeps any secondary header from being harmful. *)
Theorem traceTagRPC_panics_iff s ctx rti (e : panic) :
  traceTagRPC FromBinary s ctx rti = Panicked e
  <-> primary_parent FromBinary (incoming ctx) = None
      /\ exists jv, secondary_header (incoming ctx) = Some jv
                    /\ spanContextFromJaeger jv = Panicked e.
Proof.
  destruct (primary_parent FromBinary (incoming ctx)) as [p|] eqn:Hprim.
  - rewrite (traceTagRPC_unfold_primary FromBinary s ctx rti p Hprim).
    split; [discriminate | intros [[=] _]].
  - rewrite (traceTagRPC_unfold_jaeger FromBinary s ctx rti Hprim).
    destruct (secondary_header (incoming ctx)) as [jv|].
    + destruct (spanContextFromJaeger jv) as [r|e'] eqn:Hdec; cbn [bind].
      * split; [discriminate | intros (_ & jv' & [= <-] & Hp)].
        rewrite Hdec in Hp. discriminate Hp.
      * split.
        -- intros [= <-]. split; [reflexivity|]. exists jv. now split.
        -- intros (_ & jv' & [= <-] & Hp). rewrite Hdec in Hp.
           now injection Hp as ->.
    + split; [discriminate | intros (_ & jv' & [=] & _)].
Qed.

(** The resolver does not read the outgoing metadata. *)
Lemma traceTagRPC_with_outgoing s ctx rti (kvs : list (string * string)) :
  traceTagRPC FromBinary s (with_outgoing ctx kvs) rti
  = (fun c => with_outgoing c kvs) <$> traceTagRPC FromBinary s ctx rti.
Proof.
  destruct (primary_parent FromBinary (incoming ctx)) as [p|] eqn:Hprim.
  - rewrite (traceTagRPC_unfold_primary FromBinary s ctx rti p Hprim).
    rewrite (traceTagRPC_unfold_primary FromBinary s (with_outgoing ctx kvs)
               rti p Hprim).
    destruct (IsPublicEndpoint s); reflexivity.
  - rewrite (traceTagRPC_unfold_jaeger FromBinary s ctx rti Hprim).
    rewrite (traceTagRPC_unfold_jaeger FromBinary s (with_outgoing ctx kvs)
               rti Hprim).
    change (incoming (with_outgoing ctx kvs)) with (incoming ctx).
    destruct (secondary_header (incoming ctx)) as [jv|]; [|reflexivity].
    destruct (spanContextFromJaeger jv) as [[q [|]]|e]; cbn; try reflexivity.
    destruct (IsPublicEndpoint s); reflexivity.
Qed.

(** X11: resolving and relaying commute.  Relaying from the resolved context
    and resolving from the relayed context give the next handler the same
    context: the resolver does not read the outgoing metadata and the relay
    does not read the span. *)
Theorem resolve_relay_commute s ctx rti ctx' :
  traceTagRPC FromBinary s ctx rti = Returned ctx' ->
  traceTagRPC FromBinary s (with_outgoing ctx (forwarded (incoming ctx))) rti
  = Returned (with_outgoing ctx' (forwarded (incoming ctx)))
  /\ forall (Req Info Resp : Type) (req : Req) (info : Info)
       (handler : Context trace_Sampler -> Req -> Resp),
       JaegerTracePropagateUnaryInterceptor ctx' req info handler
       = handler (with_outgoing ctx' (forwarded (incoming ctx))) req.
Proof.
  intros Hres. split.
  - now rewrite traceTagRPC_with_outgoing, Hres.
  - intros. rewrite unary_interceptor_unfold.
    now destruct (traceTagRPC_outcomes s ctx rti ctx' Hres)
      as [(p & _ & ->) | [-> | (p & _ & ->)]].
Qed.

End ResolverFrame.

Lemma traceTagRPC_one_span_witness :
  exists start links,
    backendCalls
      (with_root (sample_handler true) (sample_ctx md_both) sample_rti
         [child_link sample_parent])
    = backendCalls (sample_ctx md_both) ++ start :: map AddLink links
    /\ (start = StartSpan (span_name sample_rti) SpanKindServer "always"
        \/ exists p,
             start = StartSpanWithRemoteParent (span_name sample_rti) p
                       SpanKindServer "always")
    /\ (List.length links <= 1)%nat
    /\ Forall (fun l => Type_ l = LinkTypeChild) links.
Proof.
  apply (traceTagRPC_one_span sample_FromBinary (sample_handler true)
           (sample_ctx md_both) sample_rti
           (with_root (sample_handler true) (sample_ctx md_both) sample_rti
              [child_link sample_parent])).
  vm_compute. reflexivity.
Defined.

Lemma traceTagRPC_trust_witness :
  exists new,
    backendCalls
      (with_root (sample_handler true) (sample_ctx md_jaeger) sample_rti
         [child_link sample_jaeger_parent])
    = backendCalls (sample_ctx md_jaeger) ++ new
    /\ (IsPublicEndpoint (sample_handler true) = true ->
        Forall (fun c => is_remote_start c = false) new)
    /\ (IsPublicEndpoint (sample_handler true) = false ->
        Forall (fun c => is_link c = false) new).
Proof.
  apply (traceTagRPC_trust sample_FromBinary (sample_handler true)
           (sample_ctx md_jaeger) sample_rti).
  vm_compute. reflexivity.
Defined.

Lemma traceTagRPC_panics_iff_witness :
  traceTagRPC sample_FromBinary (sample_handler false)
    (sample_ctx {[ jaegerContextKey := [long_trace_id] ]}) sample_rti
  = Panicked (SliceBoundsOutOfRange (-1))
  /\ traceTagRPC sample_FromBinary (sample_handler false) (sample_ctx md_both)
       sample_rti
     <> Panicked (SliceBoundsOutOfRange (-1)).
Proof.
  split.
  - apply (traceTagRPC_panics_iff sample_FromBinary).
    split; [reflexivity|]. exists long_trace_id. split; vm_compute; reflexivity.
  - intros Hp. apply (traceTagRPC_panics_iff sample_FromBinary) in Hp.
    destruct Hp as [Hprim _]. vm_compute in Hprim. discriminate Hprim.
Defined.

Lemma resolve_relay_commute_witness :
  traceTagRPC sample_FromBinary (sample_handler false)
    (with_outgoing (sample_ctx md_jaeger)
       (forwarded (incoming (sample_ctx md_jaeger)))) sample_rti
  = Returned
      (with_outgoing
         (with_remote_parent (sample_handler false) (sample_ctx md_jaeger)
            sample_rti sample_jaeger_parent)
         [(jaegerContextKey, sample_jaeger)]).
Proof.
  apply (resolve_relay_commute sample_FromBinary (sample_handler false)
           (sample_ctx md_jaeger) sample_rti).
  vm_compute. reflexivity.
Defined.

(** ** The relay: missing values, what it keeps, running it twice *)

Section RelayFrame.

Context {trace_Sampler : Type}.
Implicit Types (ctx : Context trace_Sampler).

Lemma forwarded_nil ctx :
  incomingMD ctx = None
  \/ (exists md, incomingMD ctx = Some md
                 /\ (md !! jaegerContextKey = None
                     \/ md !! jaegerContextKey = Some [])) ->
  forwarded (incoming ctx) = [].
Proof.
  unfold forwarded, secondary_header, incoming.
  intros [-> | (md & -> & Hv)]; cbn [default from_option id].
  - now rewrite lookup_empty.
  - now destruct Hv as [-> | ->].
Qed.

(** X12: without incoming metadata, without the secondary key, or with the
    key and no value, both interceptors call the next handler with the
    context they were given. *)
Theorem relay_without_value ctx :
  incomingMD ctx = None
  \/ (exists md, incomingMD ctx = Some md
                 /\ (md !! jaegerContextKey = None
                     \/ md !! jaegerContextKey = Some [])) ->
  (forall (Req Info Resp : Type) (req : Req) (info : Info)
     (handler : Context trace_Sampler -> Req -> Resp),
     JaegerTracePropagateUnaryInterceptor ctx req info handler
     = handler ctx req)
  /\ (forall (Srv S Info Err : Type) (HS : ServerStream trace_Sampler S)
        (srv : Srv) (stream : S) (info : Info)
        (handler : Srv -> WrappedServerStream trace_Sampler S -> Err),
        stream_Context stream = ctx ->
        JaegerTracePropagateStreamInterceptor srv stream info handler
        = handler srv {| wrappedStream := stream; WrappedContext := ctx |}).
Proof.
  intros Hnone. pose proof (forwarded_nil ctx Hnone) as Hfwd. split.
  - intros. now rewrite unary_interceptor_unfold, Hfwd, with_outgoing_nil.
  - intros Srv S Info Err HS srv stream info handler Hctx.
    now rewrite stream_interceptor_unfold, Hctx, Hfwd, with_outgoing_nil.
Qed.

(** X13: the context that the interceptors pass on differs from the one they
    received by at most one pair, appended after the outgoing pairs that
    were there and filed under the secondary key; the incoming metadata and
    the span are the same, and the unary and the stream interceptor pass on
    the same context. *)
Theorem relay_frame ctx :
  exists fwd : list (string * string),
    (List.length fwd <= 1)%nat
    /\ Forall (fun kv => fst kv = jaegerContextKey) fwd
    /\ (forall (Req Info Resp : Type) (req : Req) (info : Info)
          (handler : Context trace_Sampler -> Req -> Resp),
          JaegerTracePropagateUnaryInterceptor ctx req info handler
          = handler {| incomingMD := incomingMD ctx;
                       outgoingKV := outgoingKV ctx ++ fwd;
                       backendCalls := backendCalls ctx |} req)
    /\ (forall (Srv S Info Err : Type) (HS : ServerStream trace_Sampler S)
          (srv : Srv) (stream : S) (info : Info)
          (handler : Srv -> WrappedServerStream trace_Sampler S -> Err),
          stream_Context stream = ctx ->
          JaegerTracePropagateStreamInterceptor srv stream info handler
          = handler srv
              {| wrappedStream := stream;
                 WrappedContext :=
                   {| incomingMD := incomingMD ctx;
                      outgoingKV := outgoingKV ctx ++ fwd;
                      backendCalls := backendCalls ctx |} |}).
Proof.
  exists (forwarded (incoming ctx)). split; [|split; [|split]].
  - unfold forwarded. destruct (secondary_header (incoming ctx)); cbn; lia.
  - unfold forwarded.
    destruct (secondary_header (incoming ctx)); repeat constructor.
  - intros. now rewrite unary_interceptor_unfold.
  - intros Srv S Info Err HS srv stream info handler Hctx.
    now rewrite stream_interceptor_unfold, Hctx.
Qed.

(** X14: the relay is not idempotent.  An interceptor that runs inside
    another one appends the pair again, since the value is read from the
    incoming metadata and the outgoing metadata are not looked at. *)
Theorem relay_twice ctx (md : MD) (v : string) (more : list string) :
  incomingMD ctx = Some md ->
  md !! jaegerContextKey = Some (v :: more) ->
  forall (Req Info Resp : Type) (req : Req) (info : Info)
    (handler : Context trace_Sampler -> Req -> Resp),
    JaegerTracePropagateUnaryInterceptor ctx req info
      (fun c r => JaegerTracePropagateUnaryInterceptor c r info handler)
    = handler {| incomingMD := incomingMD ctx;
                 outgoingKV :=
                   outgoingKV ctx
                   ++ [(jaegerContextKey, v); (jaegerContextKey, v)];
                 backendCalls := backendCalls ctx |} req.
Proof.
  intros Hmd Hv Req Info Resp req info handler.
  rewrite !unary_interceptor_unfold.
  change (incoming (with_outgoing ctx (forwarded (incoming ctx))))
    with (incoming ctx).
  assert (Hfwd : forwarded (incoming ctx) = [(jaegerContextKey, v)]).
  { unfold forwarded, secondary_header, incoming.
    now rewrite Hmd; cbn; rewrite Hv. }
  rewrite Hfwd. unfold with_outgoing. cbn [incomingMD outgoingKV backendCalls].
  now rewrite <- app_assoc.
Qed.

End RelayFrame.

Lemma relay_without_value_witness :
  JaegerTracePropagateUnaryInterceptor (sample_ctx md_primary) tt tt
    (fun c _ => c)
  = sample_ctx md_primary.
Proof.
  apply (proj1 (relay_without_value (sample_ctx md_primary)
                  (or_intror (ex_intro _ md_primary
                     (conj eq_refl (or_introl eq_refl)))))).
Defined.

Lemma relay_twice_witness :
  JaegerTracePropagateUnaryInterceptor (sample_ctx md_unparsed) tt tt
    (fun c r =>
       JaegerTracePropagateUnaryInterceptor c r tt (fun c' _ => outgoingKV c'))
  = [(jaegerContextKey, "a:b:c"); (jaegerContextKey, "a:b:c")].
Proof.
  apply (relay_twice (sample_ctx md_unparsed) md_unparsed "a:b:c" ["later"]
           eq_refl ltac:(vm_compute; reflexivity)
           unit unit (list (string * string)) tt tt
           (fun c' _ => outgoingKV c')).
Defined.

Lemma relay_frame_witness :
  JaegerTracePropagateUnaryInterceptor (sample_ctx md_jaeger) tt tt
    (fun c _ => (incomingMD c, backendCalls c))
  = (Some md_jaeger, []).
Proof.
  destruct (relay_frame (sample_ctx md_jaeger)) as (fwd & _ & _ & Hunary & _).
  now rewrite Hunary.
Defined.

(** ** The event recorder over a call *)

Section RecorderFrame.

Context {trace_Sampler E : Type} `{GoError E}.
Implicit Types (ctx : Context trace_Sampler) (rs : RPCStats E).

Lemma traceHandleRPC_step ctx rs :
  exists new : list (TraceCall trace_Sampler),
    traceHandleRPC ctx rs
    = {| incomingMD := incomingMD ctx;
         outgoingKV := outgoingKV ctx;
         backendCalls := backendCalls ctx ++ new |}
    /\ (is_End rs = false ->
        Forall (fun c => is_span_end c = false) new
        /\ (List.length new <= 1)%nat)
    /\ (is_End rs = true ->
        exists pre, new = pre ++ [SpanEnd]
                    /\ Forall (fun c => is_span_end c = false) pre
                    /\ (List.length pre <= 1)%nat).
Proof.
  destruct rs as [c f|l w| | |l w| | |err]; cbn [traceHandleRPC is_End];
    try (eexists [_]; split; [reflexivity|];
         split; [intros _; split; [repeat constructor | cbn; lia]
                | discriminate]);
    try (exists []; split; [destruct ctx; cbn; now rewrite app_nil_r|];
         split; [intros _; split; [constructor | cbn; lia] | discriminate]).
  destruct err as [e|].
  - destruct (status_FromError e) as [[code message] [|]];
      (eexists [_; SpanEnd]; split;
       [unfold backend_call; cbn [incomingMD outgoingKV backendCalls];
        now rewrite <- app_assoc|];
       split; [discriminate|]; intros _; eexists [_];
       split; [reflexivity|]; split; [repeat constructor | cbn; lia]).
  - exists [SpanEnd]. split; [reflexivity|]. split; [discriminate|].
    intros _. exists []. split; [reflexivity|]. split; [constructor | cbn; lia].
Qed.

(** X15: an event that is not [End] never ends the span and makes at most
    one backend call; the header and trailer events make none; the message
    events carry the message id 0; and no event changes the metadata of the
    context. *)
Theorem traceHandleRPC_frame ctx rs :
  incomingMD (traceHandleRPC ctx rs) = incomingMD ctx
  /\ outgoingKV (traceHandleRPC ctx rs) = outgoingKV ctx
  /\ exists new : list (TraceCall trace_Sampler),
       backendCalls (traceHandleRPC ctx rs) = backendCalls ctx ++ new
       /\ (is_End rs = false ->
           Forall (fun c => is_span_end c = false) new
           /\ (List.length new <= 1)%nat)
       /\ (rs = InHeader \/ rs = InTrailer \/ rs = OutHeader \/ rs = OutTrailer
           -> new = [])
       /\ Forall (fun c =>
                    match c with
                    | AddMessageReceiveEvent id _ _
                    | AddMessageSendEvent id _ _ => id = 0
                    | _ => True
                    end) new.
Proof.
  destruct (traceHandleRPC_step ctx rs) as (new & Hstep & Hother & Hend).
  rewrite Hstep. cbn [incomingMD outgoingKV backendCalls].
  split; [reflexivity|]. split; [reflexivity|]. exists new.
  split; [reflexivity|]. split; [exact Hother|].
  assert (Hcalls : backendCalls (traceHandleRPC ctx rs) = backendCalls ctx ++ new)
    by now rewrite Hstep.
  clear Hstep. split.
  - intros Hrs. apply (app_inv_head (backendCalls ctx)). rewrite <- Hcalls.
    destruct Hrs as [-> | [-> | [-> | ->]]]; cbn; now rewrite app_nil_r.
  - destruct rs as [c f|l w| | |l w| | |err]; cbn [traceHandleRPC] in Hcalls;
      try (apply app_inv_head in Hcalls; subst new; repeat constructor);
      try (rewrite <- (app_nil_r (backendCalls ctx)) in Hcalls at 1;
           apply app_inv_head in Hcalls; subst new; constructor).
    destruct err as [e|].
    + destruct (status_FromError e) as [[code message] [|]];
        cbn [backend_call backendCalls] in Hcalls;
        rewrite <- app_assoc in Hcalls; apply app_inv_head in Hcalls;
        subst new; repeat constructor.
    + apply app_inv_head in Hcalls. subst new. repeat constructor.
Qed.

Lemma lifecycle_before_End (evs : list (RPCStats E)) :
  Forall (fun rs => is_End rs = false) evs ->
  forall ctx,
    exists pre : list (TraceCall trace_Sampler),
      fold_left traceHandleRPC evs ctx
      = {| incomingMD := incomingMD ctx;
           outgoingKV := outgoingKV ctx;
           backendCalls := backendCalls ctx ++ pre |}
      /\ Forall (fun c => is_span_end c = false) pre
      /\ (List.length pre <= List.length evs)%nat.
Proof.
  induction 1 as [|rs evs Hrs _ IH]; intros ctx.
  - exists []. split; [destruct ctx; cbn; now rewrite app_nil_r|].
    split; [constructor | cbn; lia].
  - cbn [fold_left].
    destruct (traceHandleRPC_step ctx rs) as (new & Hstep & Hother & _).
    destruct (Hother Hrs) as (Hnew & Hlen).
    destruct (IH (traceHandleRPC ctx rs)) as (pre & Hfold & Hpre & Hlen').
    exists (new ++ pre). rewrite Hfold, Hstep.
    cbn [incomingMD outgoingKV backendCalls]. rewrite <- app_assoc.
    split; [reflexivity|]. split; [now apply Forall_app|].
    rewrite length_app. cbn [List.length]. lia.
Qed.

(** X16: over the events of a call, none of which is [End] before the final
    [End], the span is ended once, by the last backend call; the metadata of
    the context are as they were at the start. *)
Theorem lifecycle_ends_once ctx (evs : list (RPCStats E)) (err : option E) :
  Forall (fun rs => is_End rs = false) evs ->
  exists pre : list (TraceCall trace_Sampler),
    fold_left traceHandleRPC (evs ++ [End_ err]) ctx
    = {| incomingMD := incomingMD ctx;
         outgoingKV := outgoingKV ctx;
         backendCalls := backendCalls ctx ++ pre ++ [SpanEnd] |}
    /\ Forall (fun c => is_span_end c = false) pre.
Proof.
  intros Hevs. rewrite fold_left_app. cbn [fold_left].
  destruct (lifecycle_before_End evs Hevs ctx) as (pre & -> & Hpre & _).
  match goal with |- context [traceHandleRPC ?c _] =>
    destruct (traceHandleRPC_step c (End_ err)) as (new & -> & _ & Hend)
  end.
  destruct (Hend eq_refl) as (st & -> & Hst & _).
  exists (pre ++ st). cbn [incomingMD outgoingKV backendCalls].
  rewrite <- !app_assoc. split; [reflexivity | now apply Forall_app].
Qed.

End RecorderFrame.

Lemma traceHandleRPC_frame_witness :
  backendCalls
    (traceHandleRPC (sample_ctx ∅) (@InHeader sample_error))
  = [].
Proof.
  destruct (traceHandleRPC_frame (sample_ctx ∅) (@InHeader sample_error))
    as (_ & _ & new & -> & _ & Hnone & _).
  now rewrite (Hnone (or_introl eq_refl)).
Defined.

Lemma lifecycle_ends_once_witness :
  exists pre : list (TraceCall string),
    fold_left traceHandleRPC
      ([Begin false true; OutPayload 5 10; InHeader; InPayload 7 12]
       ++ [End_ (Some (PlainError "boom"))])
      (sample_ctx ∅)
    = {| incomingMD := incomingMD (sample_ctx ∅);
         outgoingKV := outgoingKV (sample_ctx ∅);
         backendCalls := backendCalls (sample_ctx ∅) ++ pre ++ [SpanEnd] |}
    /\ Forall (fun c => is_span_end c = false) pre.
Proof.
  apply (lifecycle_ends_once (sample_ctx ∅)
           [Begin false true; OutPayload 5 10; InHeader; InPayload 7 12]
           (Some (PlainError "boom"))).
  repeat constructor.
Defined.

(** ** Span names *)

Lemma strings_Replace_length (s : string) (old new : ascii) :
  String.length (strings_Replace s old new) = String.length s.
Proof. induction s as [|c s IH]; cbn; [reflexivity | now rewrite IH]. Qed.

Lemma strings_Replace_gone (s : string) :
  ~ has_slash (strings_Replace s "/" ".").
Proof.
  unfold has_slash. induction s as [|c s IH]; cbn; [tauto|].
  intros [Hc | Hin]; [|contradiction].
  destruct (Ascii.eqb_spec c "/"); [discriminate Hc | congruence].
Qed.

Lemma strings_Replace_absent (s : string) :
  ~ has_slash s -> strings_Replace s "/" "." = s.
Proof.
  unfold has_slash. induction s as [|c s IH]; cbn; [reflexivity|].
  intros Hno. destruct (Ascii.eqb_spec c "/") as [->|_]; [tauto|].
  rewrite IH; [reflexivity | tauto].
Qed.

(** X17: the span name of a method name has no slash in it; it is the method
    name itself when that has no slash, and otherwise has the length of the
    method name, less one when a leading slash was dropped. *)
Theorem span_name_slashes (rti : RPCTagInfo) :
  ~ has_slash (span_name rti)
  /\ (~ has_slash (FullMethodName rti) -> span_name rti = FullMethodName rti)
  /\ (forall rest, FullMethodName rti = String "/" rest ->
        span_name rti = strings_Replace rest "/" "."
        /\ strlen (span_name rti) = strlen (FullMethodName rti) - 1)
  /\ ((forall rest, FullMethodName rti <> String "/" rest) ->
      strlen (span_name rti) = strlen (FullMethodName rti)).
Proof.
  unfold span_name, strlen. split; [apply strings_Replace_gone|].
  split; [|split].
  - intros Hno. rewrite strings_Replace_absent.
    + destruct (FullMethodName rti) as [|c s]; [reflexivity|]. cbn.
      destruct (Ascii.eqb_spec c "/") as [->|_]; [|reflexivity].
      contradiction Hno. now left.
    + destruct (FullMethodName rti) as [|c s]; [exact Hno|]. cbn.
      destruct (Ascii.eqb_spec c "/") as [->|_]; [|exact Hno].
      intros Hin. apply Hno. now right.
  - intros rest ->. cbn [strings_TrimPrefix Ascii.eqb Bool.eqb].
    split; [reflexivity|]. rewrite strings_Replace_length.
    cbn [String.length]. lia.
  - intros Hno. rewrite strings_Replace_length.
    destruct (FullMethodName rti) as [|c s]; [reflexivity|]. cbn.
    destruct (Ascii.eqb_spec c "/") as [->|_]; [|reflexivity].
    now contradiction (Hno s).
Qed.

Lemma span_name_slashes_witness :
  span_name {| FullMethodName := "/pkg.Service/Method" |}
  = "pkg.Service.Method"%string
  /\ span_name {| FullMethodName := "no slash" |} = "no slash"%string.
Proof.
  destruct (span_name_slashes {| FullMethodName := "/pkg.Service/Method" |})
    as (_ & _ & Hlead & _).
  destruct (span_name_slashes {| FullMethodName := "no slash" |})
    as (_ & Hnone & _).
  split.
  - now rewrite (proj1 (Hlead "pkg.Service/Method"%string eq_refl)).
  - apply Hnone. unfold has_slash. cbn.
    intros Hin. repeat destruct Hin as [Hin | Hin]; try discriminate Hin.
    exact Hin.
Defined.

(** ** The client side, and a call from client to server *)

Section ClientToServer.

Context {trace_Sampler : Type}.
Variable Binary : SpanContext -> string.
Variable FromBinary : string -> SpanContext * bool.
Variable span_SpanContext : list (TraceCall trace_Sampler) -> SpanContext.
Implicit Types (c : ClientHandler trace_Sampler) (s : ServerHandler trace_Sampler).
Implicit Types (ctx : Context trace_Sampler) (rti : RPCTagInfo).

Local Abbreviation client_span := (client_span span_SpanContext).

(** X18: from client to server.  The client starts one span, of kind client,
    and appends its encoded context under the primary key, after the
    outgoing pairs that were there.  A server that finds that value first
    under the primary key, with a codec that decodes it back, starts its
    span under the client's span context when it is not a public endpoint,
    and links to it when it is; the secondary key plays no part. *)
Theorem client_to_server c ctx rti s (sctx : Context trace_Sampler)
    (srti : RPCTagInfo) (more : list string) :
  let sc := client_span c ctx rti in
  let tagged := ClientHandler_traceTagRPC Binary span_SpanContext c ctx rti in
  FromBinary (Binary sc) = (sc, true) ->
  incoming sctx !! traceContextKey = Some (Binary sc :: more) ->
  outgoingKV tagged = outgoingKV ctx ++ [(traceContextKey, Binary sc)]
  /\ backendCalls tagged
     = backendCalls ctx
       ++ [StartSpan (span_name rti) SpanKindClient
             (Sampler (ClientStartOptions c))]
  /\ incomingMD tagged = incomingMD ctx
  /\ traceTagRPC FromBinary s sctx srti
     = Returned (if IsPublicEndpoint s
                 then with_root s sctx srti [child_link sc]
                 else with_remote_parent s sctx srti sc).
Proof.
  intros sc tagged Hcodec Hmd.
  repeat (split; [reflexivity|]).
  apply traceTagRPC_unfold_primary.
  unfold primary_parent. rewrite Hmd. cbn [default from_option id].
  now rewrite Hcodec.
Qed.

(** X19: relay, then tag.  When the client handler tags an outbound call
    from the context that the relay interceptor passes on, the outgoing
    metadata hold the relayed secondary value and the encoded client span,
    in that order, after the pairs that were there. *)
Theorem relay_then_tag c ctx rti (md : MD) (v : string) (more : list string) :
  incomingMD ctx = Some md ->
  md !! jaegerContextKey = Some (v :: more) ->
  forall (Req Info : Type) (req : Req) (info : Info),
    JaegerTracePropagateUnaryInterceptor ctx req info
      (fun ctx' _ =>
         outgoingKV
           (ClientHandler_traceTagRPC Binary span_SpanContext c ctx' rti))
    = outgoingKV ctx
      ++ [(jaegerContextKey, v);
          (traceContextKey, Binary (client_span c ctx rti))].
Proof.
  intros Hmd Hv Req Info req info. rewrite unary_interceptor_unfold.
  assert (Hfwd : forwarded (incoming ctx) = [(jaegerContextKey, v)]).
  { unfold forwarded, secondary_header, incoming.
    now rewrite Hmd; cbn; rewrite Hv. }
  rewrite Hfwd. unfold ClientHandler_traceTagRPC, client_span.
  cbn [metadata_AppendToOutgoingContext backend_call with_outgoing
         incomingMD outgoingKV backendCalls].
  now rewrite <- app_assoc.
Qed.

End ClientToServer.

Lemma client_to_server_witness :
  outgoingKV
    (ClientHandler_traceTagRPC sample_Binary sample_span_SpanContext
       sample_client (sample_ctx ∅) sample_rti)
  = [(traceContextKey, sample_binary)]
  /\ traceTagRPC sample_FromBinary (sample_handler false)
       (sample_ctx md_both) sample_rti
     = Returned (with_remote_parent (sample_handler false) (sample_ctx md_both)
                   sample_rti sample_parent).
Proof.
  destruct (client_to_server sample_Binary sample_FromBinary
              sample_span_SpanContext sample_client (sample_ctx ∅) sample_rti
              (sample_handler false) (sample_ctx md_both) sample_rti ["later"]
              ltac:(vm_compute; reflexivity) ltac:(vm_compute; reflexivity))
    as (Hout & _ & _ & Hserver).
  split; [exact Hout | exact Hserver].
Defined.

Lemma relay_then_tag_witness :
  JaegerTracePropagateUnaryInterceptor (sample_ctx md_jaeger) tt tt
    (fun ctx' _ =>
       outgoingKV
         (ClientHandler_traceTagRPC sample_Binary sample_span_SpanContext
            sample_client ctx' sample_rti))
  = [(jaegerContextKey, sample_jaeger); (traceContextKey, sample_binary)].
Proof.
  apply (relay_then_tag sample_Binary sample_span_SpanContext sample_client
           (sample_ctx md_jaeger) sample_rti md_jaeger sample_jaeger
           [long_trace_id] eq_refl ltac:(vm_compute; reflexivity)
           unit unit tt tt).
Defined.
